(** * CORD-19 metadata explorer: the data-preparation logic of
      [analysis.py] (batch report) and [app.py] (interactive explorer).

    The two scripts are embedded as functions over tables.  A table is the
    list of its rows in positional order; the row labels pandas keeps beside
    the rows are not modelled.  Plot styling, path construction and the
    caching decorator are outside the development.  The expected columns
    [title], [abstract], [journal] and [publish_time] are taken to exist and
    to hold text (a missing column makes both scripts fail on first use). *)

From Stdlib Require Import Ascii String.
From Stdlib Require Import List ZArith NArith Bool Arith Lia.
From Stdlib Require Import Permutation Sorted.
Import ListNotations.

Set Implicit Arguments.

(** ** Text *)

(** A Python [str] is a sequence of Unicode code points. *)
Definition str := list N.

(** Embeds an ASCII literal, for the examples. *)
Fixpoint py (s : string) : str :=
  match s with
  | EmptyString => []
  | String c s' => N_of_ascii c :: py s'
  end.

Definition str_eqb (a b : str) : bool :=
  if list_eq_dec N.eq_dec a b then true else false.

(** The characters [str.split()] treats as separators: the ASCII table of
    the interpreter (tab to carriage return, the four information
    separators, space) and the Unicode white-space code points. *)
Definition isspace (c : N) : bool :=
  (((9 <=? c) && (c <=? 13)) || ((28 <=? c) && (c <=? 32))
   || (c =? 133) || (c =? 160) || (c =? 5760)
   || ((8192 <=? c) && (c <=? 8202))
   || (c =? 8232) || (c =? 8233) || (c =? 8239) || (c =? 8287)
   || (c =? 12288))%N.

(** [x.split()] with no argument: skip a run of white space, collect a run
    of other characters, repeat.  [cur] is the token being collected, most
    recent character first, or [None] between tokens. *)
Fixpoint split_ws (cur : option str) (s : str) : list str :=
  match s with
  | [] => match cur with
          | None => []
          | Some w => [rev w]
          end
  | c :: s' =>
      if isspace c then
        match cur with
        | None => split_ws None s'
        | Some w => rev w :: split_ws None s'
        end
      else
        match cur with
        | None => split_ws (Some [c]) s'
        | Some w => split_ws (Some (c :: w)) s'
        end
  end.

Definition split (x : str) : list str := split_ws None x.

(** [Series.fillna] on one cell. *)
Definition fillna {A : Type} (d : A) (x : option A) : A :=
  match x with
  | Some a => a
  | None => d
  end.

Definition notna {A : Type} (x : option A) : bool :=
  match x with
  | Some _ => true
  | None => false
  end.

(** The specification's wording of the word count: the number of
    white-space separated tokens, counted as the positions where a token
    begins (a character that is not white space, at the start of the text
    or right after white space).  [prev_ws] tells whether the previous
    character was white space (or there was none). *)
Fixpoint token_starts (prev_ws : bool) (s : str) : nat :=
  match s with
  | [] => 0
  | c :: s' =>
      if isspace c then token_starts true s'
      else (if prev_ws then 1 else 0) + token_starts false s'
  end.

Definition whitespace_token_count (x : option str) : nat :=
  match x with
  | None => 0
  | Some s => token_starts true s
  end.

(** ** Dates *)

Record Timestamp := mkTimestamp {
  ts_year : Z;
  ts_month : Z;
  ts_day : Z
}.

(** [pd.to_datetime(column, errors='coerce')] is library code.  It is taken
    as an interface: a function from the text column to a column of
    optional timestamps ([None] is pandas' NaT) of the same length.  The
    result of one cell may depend on the other cells of the column (the
    library guesses one format for the whole column), so the interface is
    stated on columns.  With [errors='coerce'] a cell that does not parse
    gives NaT: the function has no error result. *)
Class DatetimeParser := {
  to_datetime : list (option str) -> list (option Timestamp);
  to_datetime_length : forall c, length (to_datetime c) = length c
}.

(** A stand-in for the library's parser, used to run the sample tables: it
    reads each cell on its own and accepts only the calendar-date form
    [YYYY-MM-DD], proleptic Gregorian dates from 1677-09-22 to 2262-04-11;
    anything else is NaT.  It is not the library's parser, which accepts
    more forms and guesses one format for a column. *)
Definition digit (c : N) : option Z :=
  if ((48 <=? c) && (c <=? 57))%N then Some (Z.of_N c - 48)%Z else None.

Fixpoint digits (acc : Z) (s : str) : option Z :=
  match s with
  | [] => Some acc
  | c :: s' =>
      match digit c with
      | Some d => digits (10 * acc + d)%Z s'
      | None => None
      end
  end.

Definition is_leap (y : Z) : bool :=
  ((y mod 4 =? 0) && (negb (y mod 100 =? 0) || (y mod 400 =? 0)))%Z.

Definition days_in_month (y m : Z) : Z :=
  (if m =? 2 then (if is_leap y then 29 else 28)
   else if (m =? 4) || (m =? 6) || (m =? 9) || (m =? 11) then 30
   else 31)%Z.

Definition date_key (y m d : Z) : Z := (y * 10000 + m * 100 + d)%Z.

Definition parse_iso_date (s : str) : option Timestamp :=
  match s with
  | [y1; y2; y3; y4; 45%N; m1; m2; 45%N; d1; d2] =>
      match digits 0 [y1; y2; y3; y4], digits 0 [m1; m2], digits 0 [d1; d2] with
      | Some y, Some m, Some d =>
          if ((1 <=? m) && (m <=? 12) && (1 <=? d) && (d <=? days_in_month y m)
              && (date_key 1677 9 22 <=? date_key y m d)
              && (date_key y m d <=? date_key 2262 4 11))%Z
          then Some (mkTimestamp y m d)
          else None
      | _, _, _ => None
      end
  | _ => None
  end.

Definition to_datetime_iso (c : list (option str)) : list (option Timestamp) :=
  map (fun x => match x with
                | Some s => parse_iso_date s
                | None => None
                end) c.

#[export] Instance iso_parser : DatetimeParser := {
  to_datetime := to_datetime_iso;
  to_datetime_length := fun c => length_map _ c
}.

(** ** Records and tables *)

(** A row as [pd.read_csv] delivers it: every expected column is text or
    missing. *)
Record RawRecord := mkRaw {
  raw_title : option str;
  raw_abstract : option str;
  raw_journal : option str;
  raw_publish_time : option str
}.

(** A row once [publish_time] has been parsed.  [year] and
    [abstract_word_count] are the derived columns; a cell of either is
    [None] while the column has not been assigned, and [year] is also
    [None] (pandas' NaN) where the date is NaT. *)
Record PaperRecord := mkPaper {
  title : option str;
  abstract : option str;
  journal : option str;
  publish_time : option Timestamp;
  year : option Z;
  abstract_word_count : option nat
}.

Definition RawFrame := list RawRecord.
Definition DataFrame := list PaperRecord.

(** [df['publish_time'] = <column>]: the new column is laid beside the
    rows. *)
Definition assign_publish_time (df : RawFrame) (col : list (option Timestamp))
  : DataFrame :=
  map (fun p => mkPaper (raw_title (fst p)) (raw_abstract (fst p))
                        (raw_journal (fst p)) (snd p) None None)
      (combine df col).

(** [df['year'] = <column>]. *)
Definition assign_year (df : DataFrame) (col : list (option Z)) : DataFrame :=
  map (fun p => mkPaper (title (fst p)) (abstract (fst p)) (journal (fst p))
                        (publish_time (fst p)) (snd p)
                        (abstract_word_count (fst p)))
      (combine df col).

(** [df['abstract_word_count'] = <column>]. *)
Definition assign_abstract_word_count (df : DataFrame) (col : list nat)
  : DataFrame :=
  map (fun p => mkPaper (title (fst p)) (abstract (fst p)) (journal (fst p))
                        (publish_time (fst p)) (year (fst p)) (Some (snd p)))
      (combine df col).

(** [series.dt.year]. *)
Definition dt_year (col : list (option Timestamp)) : list (option Z) :=
  map (option_map ts_year) col.

(** [df['abstract'].fillna("").apply(lambda x: len(x.split()))]. *)
Definition abstract_word_counts (df : DataFrame) : list nat :=
  map (fun x => length (split x)) (map (fillna []) (map abstract df)).

(** The row test of [df.dropna(subset=['title', 'year'])]. *)
Definition has_title_and_year (r : PaperRecord) : bool :=
  notna (title r) && notna (year r).

Definition dropna_title_year (df : DataFrame) : DataFrame :=
  filter has_title_and_year df.

(** The first two statements shared by [clean_data] and the interactive
    [load_data]: parse [publish_time], derive [year]. *)
Definition parse_dates `{DatetimeParser} (df : RawFrame) : DataFrame :=
  let df1 := assign_publish_time df (to_datetime (map raw_publish_time df)) in
  assign_year df1 (dt_year (map publish_time df1)).

(** ** The [errors] argument of the date conversion *)










(** ** Frequency tables *)

Definition dropna {A : Type} (col : list (option A)) : list A :=
  flat_map (fun x => match x with
                     | Some a => [a]
                     | None => []
                     end) col.

Definition option_eqb {K : Type} (eqb : K -> K -> bool) (a b : option K) : bool :=
  match a, b with
  | Some x, Some y => eqb x y
  | None, None => true
  | _, _ => false
  end.

Section Tally.

Variable K : Type.
Variable eqb : K -> K -> bool.

(** One step of the counting pass of [value_counts]: a value seen before has
    its count raised, a new value is entered after the values seen so far. *)
Fixpoint bump (k : K) (acc : list (K * nat)) : list (K * nat) :=
  match acc with
  | [] => [(k, 1)]
  | (k', n) :: acc' =>
      if eqb k k' then (k', S n) :: acc' else (k', n) :: bump k acc'
  end.

(** The distinct values of a column with their counts, in order of first
    appearance. *)
Definition tally (s : list K) : list (K * nat) :=
  fold_left (fun acc k => bump k acc) s [].

(** The count entered for [k] (0 when there is none). *)
Fixpoint count_of (k : K) (acc : list (K * nat)) : nat :=
  match acc with
  | [] => 0
  | (k', n) :: acc' => if eqb k k' then n else count_of k acc'
  end.

(** The number of cells of a column equal to [k]. *)
Definition occurrences (k : K) (s : list K) : nat :=
  length (filter (eqb k) s).

End Tally.

(** [value_counts] orders its entries by count, largest first, with the
    library's sort; how equal counts are ordered is not fixed.  The sort is
    taken as an interface: it rearranges the entries and leaves them in
    descending order of count, and it does not look at the keys. *)
Class Sorter := {
  sort_values : forall K : Type, list (K * nat) -> list (K * nat);
  sort_values_perm :
    forall (K : Type) (l : list (K * nat)), Permutation l (sort_values l);
  sort_values_desc :
    forall (K : Type) (l : list (K * nat)),
      StronglySorted (fun a b => snd b <= snd a) (sort_values l)
}.

(** [series.value_counts(dropna=...)]; the scripts call it with no
    argument, so with [dropna=True]. *)
Definition value_counts `{Sorter} {K : Type} (eqb : K -> K -> bool)
    (na_dropped : bool) (s : list (option K)) : list (option K * nat) :=
  sort_values (tally (option_eqb eqb)
                     (if na_dropped then filter notna s else s)).

(** Order of the index labels for [sort_index]: ascending, NaN last. *)
Definition label_leb (a b : option Z) : bool :=
  match a, b with
  | Some x, Some y => (x <=? y)%Z
  | Some _, None => true
  | None, Some _ => false
  | None, None => true
  end.

Section InsertionSort.

Variable A : Type.
Variable leb : A -> A -> bool.

Fixpoint insert_by (e : A) (l : list A) : list A :=
  match l with
  | [] => [e]
  | e' :: l' => if leb e e' then e :: l else e' :: insert_by e l'
  end.

(** Stable insertion sort for the order [leb]. *)
Definition sort_by (l : list A) : list A := fold_right insert_by [] l.

End InsertionSort.

(** [counts.sort_index()]: the entries in ascending order of their label.
    The labels of a frequency table are distinct, so every sort gives the
    same result; insertion sort stands for the library's. *)
Definition sort_index (l : list (option Z * nat)) : list (option Z * nat) :=
  sort_by (fun a b => label_leb (fst a) (fst b)) l.

(** [head(n)]. *)
Definition head {A : Type} (n : nat) (l : list A) : list A := firstn n l.

(** [df['year'].value_counts().sort_index()]. *)
Definition year_frequency `{Sorter} (df : DataFrame) : list (option Z * nat) :=
  sort_index (value_counts Z.eqb true (map year df)).

(** [df['journal'].value_counts().head(10)]. *)
Definition journal_top10 `{Sorter} (df : DataFrame) : list (option str * nat) :=
  head 10 (value_counts str_eqb true (map journal df)).

(** A stable sort by descending count, to run the examples. *)
Definition insertion_sort_desc (K : Type) (l : list (K * nat)) : list (K * nat) :=
  sort_by (fun a b => snd b <=? snd a) l.

(** ** Year-range filter of the interactive explorer *)

(** [series >= lo] and [series <= hi] on one cell: a comparison with NaN is
    false. *)
Definition ge_cell (y : option Z) (lo : Z) : bool :=
  match y with
  | Some v => (lo <=? v)%Z
  | None => false
  end.

Definition le_cell (y : option Z) (hi : Z) : bool :=
  match y with
  | Some v => (v <=? hi)%Z
  | None => false
  end.

Definition mask (year_range : Z * Z) (r : PaperRecord) : bool :=
  ge_cell (year r) (fst year_range) && le_cell (year r) (snd year_range).

(** [df.loc[mask]]. *)
Definition filter_year (year_range : Z * Z) (df : DataFrame) : DataFrame :=
  filter (mask year_range) df.

(** [series.min()] and [series.max()] of a column without NaN; [None] for an
    empty column (the library's NaN, on which [int] raises). *)
Definition series_min (l : list Z) : option Z :=
  match l with
  | [] => None
  | x :: l' => Some (fold_left Z.min l' x)
  end.

Definition series_max (l : list Z) : option Z :=
  match l with
  | [] => None
  | x :: l' => Some (fold_left Z.max l' x)
  end.

(** ** Word frequencies *)

(** [str.lower] follows the Unicode case tables; it is taken as a function
    on text. *)
Class CaseMapping := {
  lower : str -> str
}.

(** [str.lower] on ASCII text (the letters A to Z), to run the examples. *)
Definition ascii_lower (s : str) : str :=
  map (fun c => if ((65 <=? c) && (c <=? 90))%N then (c + 32)%N else c) s.

#[export] Instance ascii_case : CaseMapping := {
  lower := ascii_lower
}.

(** [Counter(words)]: the distinct words with their counts, in order of
    first appearance. *)
Definition Counter (words : list str) : list (str * nat) :=
  tally str_eqb words.

(** [counter.most_common(n)]: the [n] first entries of the entries sorted
    by descending count, entries of equal count staying in their order. *)
Definition most_common (n : nat) (counter : list (str * nat)) : list (str * nat) :=
  head n (insertion_sort_desc counter).

(** [df.isnull().sum()] for one column. *)
Definition isnull_sum {A : Type} (col : list (option A)) : nat :=
  length (filter (fun x => negb (notna x)) col).

(** ** The two scripts *)

(** What reading the CSV file can give. *)
Inductive ReadResult :=
| ReadOk (df : RawFrame)
| FileNotFound
| ReadError.

Module Analysis.

(** [load_data]: the table, or the exit status of [sys.exit(1)]. *)
Definition load_data (res : ReadResult) : RawFrame + Z :=
  match res with
  | ReadOk df => inl df
  | FileNotFound => inr 1%Z
  | ReadError => inr 1%Z
  end.

(** The result of [clean_data]: the returned table and the number printed
    in the line that reports the dropped rows. *)
Record Cleaned := mkCleaned {
  cleaned : DataFrame;
  dropped : Z
}.

Definition clean_data `{DatetimeParser} (df0 : RawFrame) : Cleaned :=
  let df := parse_dates df0 in
  let before := length df in
  let df := dropna_title_year df in
  let after := length df in
  let report := (Z.of_nat before - Z.of_nat after)%Z in
  let df := assign_abstract_word_count df (abstract_word_counts df) in
  mkCleaned df report.

(** The two frequency tables of [basic_analysis], also drawn by
    [plot_publications_by_year] and [plot_top_journals]. *)
Definition counts_year `{Sorter} (df : DataFrame) : list (option Z * nat) :=
  year_frequency df.

Definition top_journals `{Sorter} (df : DataFrame) : list (option str * nat) :=
  journal_top10 df.

(** What [explore_data] prints: the first five rows and the number of
    missing values of each column ([df.info()] is left out). *)
Record Explored := mkExplored {
  shown_head : RawFrame;
  missing_title : nat;
  missing_abstract : nat;
  missing_journal : nat;
  missing_publish_time : nat
}.

Definition explore_data (df : RawFrame) : Explored :=
  mkExplored (head 5 df)
             (isnull_sum (map raw_title df))
             (isnull_sum (map raw_abstract df))
             (isnull_sum (map raw_journal df))
             (isnull_sum (map raw_publish_time df)).

(** The title words of [basic_analysis]:
    [df['title'].dropna().str.lower().str.split()], the words longer than
    five characters, and the ten most common of them. *)
Definition all_titles `{CaseMapping} (df : DataFrame) : list (list str) :=
  map split (map lower (dropna (map title df))).

Definition words `{CaseMapping} (df : DataFrame) : list (str * nat) :=
  Counter (flat_map (fun title => filter (fun word => 5 <? length word) title)
                    (all_titles df)).

Definition most_common_title_words `{CaseMapping} (df : DataFrame)
  : list (str * nat) :=
  most_common 10 (words df).

(** The data [plot_histogram_abstract_words] and
    [plot_scatter_sepal_vs_abstract] draw. *)
Definition plot_histogram_abstract_words (df : DataFrame) : list nat :=
  dropna (map abstract_word_count df).

Definition plot_scatter_sepal_vs_abstract (df : DataFrame)
  : list (option Z * option nat) :=
  map (fun r => (year r, abstract_word_count r)) df.

(** [main] up to the tables: load, clean, analyse the cleaned table. *)
Definition main `{DatetimeParser} `{Sorter} (res : ReadResult)
  : (Cleaned * list (option Z * nat) * list (option str * nat)) + Z :=
  match load_data res with
  | inl df =>
      let df_clean := clean_data df in
      inl (df_clean, counts_year (cleaned df_clean),
           top_journals (cleaned df_clean))
  | inr status => inr status
  end.

End Analysis.

Module App.

(** [pd.read_csv] inside [load_data]: the table, or [None] when reading
    raises (the script has no handler). *)
Definition read (res : ReadResult) : option RawFrame :=
  match res with
  | ReadOk df => Some df
  | _ => None
  end.

(** The statements of [load_data] once the file is read. *)
Definition load_data `{DatetimeParser} (df0 : RawFrame) : DataFrame :=
  let df := parse_dates df0 in
  assign_abstract_word_count df (abstract_word_counts df).

(** The bounds handed to the slider: [int(df['year'].dropna().min())] and
    the same with [max]; [None] when no row has a year ([int] raises). *)
Definition year_bounds (df : DataFrame) : option (Z * Z) :=
  match series_min (dropna (map year df)), series_max (dropna (map year df)) with
  | Some min_year, Some max_year => Some (min_year, max_year)
  | _, _ => None
  end.

(** What one run of the script shows for the selected range. *)
Record Page := mkPage {
  df_filtered : DataFrame;
  n_papers : nat;
  preview : list (option str * option str * option Z);
  counts : list (option Z * nat);
  top10 : list (option str * nat);
  histogram : list nat;
  scatter : list (option Z * option nat)
}.

(** The body of [main] below the slider. *)
Definition render `{Sorter} (df : DataFrame) (year_range : Z * Z) : Page :=
  let df_filtered := filter_year year_range df in
  mkPage df_filtered
         (length df_filtered)
         (head 10 (map (fun r => (title r, journal r, year r)) df_filtered))
         (year_frequency df_filtered)
         (journal_top10 df_filtered)
         (dropna (map abstract_word_count df_filtered))
         (map (fun r => (year r, abstract_word_count r)) df_filtered).

(** [st.slider(label, min_value, max_value, (min_value, max_value))]:
    [selection] is the range the user has set, [None] while the slider is
    untouched and shows its default, the full range.  The widget raises
    when the two bounds are equal ([None]).  The widget only lets the user
    set a range within the bounds; the model accepts any selection. *)
Definition slider (min_value max_value : Z) (selection : option (Z * Z))
  : option (Z * Z) :=
  if (min_value =? max_value)%Z then None
  else Some (fillna (min_value, max_value) selection).

(** [main]: no page when reading raises, when no record has a year, or when
    the slider raises. *)
Definition main `{DatetimeParser} `{Sorter} (res : ReadResult)
    (selection : option (Z * Z)) : option Page :=
  match read res with
  | Some df0 =>
      let df := load_data df0 in
      match year_bounds df with
      | Some (min_year, max_year) =>
          match slider min_year max_year selection with
          | Some year_range => Some (render df year_range)
          | None => None
          end
      | None => None
      end
  | None => None
  end.

End App.

(** ** Vocabulary of the properties and sample data *)

(** The row [clean_data] and [load_data] build from a raw row and its parsed
    date. *)
Definition dated (p : RawRecord * option Timestamp) : PaperRecord :=
  mkPaper (raw_title (fst p)) (raw_abstract (fst p)) (raw_journal (fst p))
          (snd p) (option_map ts_year (snd p)) None.

(** A row with its word count filled in. *)
Definition counted (r : PaperRecord) : PaperRecord :=
  mkPaper (title r) (abstract r) (journal r) (publish_time r) (year r)
          (Some (length (split (fillna [] (abstract r))))).

(** A record is retained by the Cleaner when its title and its year are
    present. *)
Definition retained (r : PaperRecord) : Prop :=
  title r <> None /\ year r <> None.

Definition sample_paper : RawRecord :=
  mkRaw (Some (py "Coronavirus genomes")) (Some (py "a b c"))
        (Some (py "Lancet")) (Some (py "2020-03-01")).

Definition sample_untitled : RawRecord :=
  mkRaw None (Some (py "two words")) (Some (py "Lancet"))
        (Some (py "2020-03-01")).

Definition sample_undated : RawRecord :=
  mkRaw (Some (py "Bat viruses")) None None (Some (py "not-a-date")).





Definition sample_older : RawRecord :=
  mkRaw (Some (py "Respiratory syndromes")) (Some (py "one")) (Some (py "Nature"))
        (Some (py "2019-11-05")).

(** The row test "title or year is absent". *)
Definition title_or_year_absent (r : PaperRecord) : bool :=
  negb (notna (title r)) || negb (notna (year r)).

(** The number of records of a table with a given journal, and with a given
    year. *)
Definition records_with_journal (j : str) (df : DataFrame) : nat :=
  length (filter (fun r => match journal r with
                           | Some v => str_eqb j v
                           | None => false
                           end) df).

Definition records_with_year (y : Z) (df : DataFrame) : nat :=
  length (filter (fun r => match year r with
                           | Some v => (y =? v)%Z
                           | None => false
                           end) df).

(** The distinct journals present in a table. *)
Definition distinct_journals (df : DataFrame) : list str :=
  nodup (list_eq_dec N.eq_dec) (dropna (map journal df)).

(** Strictly ascending year labels. *)
Definition label_lt (a b : option Z * nat) : Prop :=
  match fst a, fst b with
  | Some x, Some y => (x < y)%Z
  | _, _ => False
  end.

(** Three papers in two journals and one without a journal, published in
    2020, 2019 and 2020. *)
Definition sample_table : DataFrame :=
  [mkPaper (Some (py "A")) None (Some (py "Lancet")) None (Some 2020%Z) (Some 0);
   mkPaper (Some (py "B")) None (Some (py "Nature")) None (Some 2019%Z) (Some 0);
   mkPaper (Some (py "C")) None None None None (Some 0);
   mkPaper (Some (py "D")) None (Some (py "Nature")) None (Some 2020%Z) (Some 0)].

(** A text that is absent, empty or all white space. *)
Definition blank (x : option str) : Prop :=
  match x with
  | None => True
  | Some s => Forall (fun c => isspace c = true) s
  end.

(** The sum of the counts of a frequency table. *)
Definition total {K : Type} (counts : list (K * nat)) : nat :=
  list_sum (map snd counts).

(** Eleven papers, each in a journal of its own. *)
Definition sample_eleven : DataFrame :=
  map (fun c => mkPaper (Some [c]) None (Some [c]) None (Some 2020%Z) (Some 0))
      [65; 66; 67; 68; 69; 70; 71; 72; 73; 74; 75]%N.

(** The words counted by [basic_analysis]: the words of the lower-cased
    titles that are longer than five characters, in the order met. *)
Definition long_title_words `{CaseMapping} (df : DataFrame) : list str :=
  flat_map (fun title => filter (fun word => 5 <? length word) title)
           (Analysis.all_titles df).

(** Eleven papers whose titles are eleven different six-letter words. *)
Definition sample_eleven_titles : DataFrame :=
  map (fun c => mkPaper (Some [c; c; c; c; c; c]) None None None
                        (Some 2020%Z) (Some 0))
      [65; 66; 67; 68; 69; 70; 71; 72; 73; 74; 75]%N.

(** The distinct values of a list in the order in which each is first met;
    [seen] holds the values met before. *)
Fixpoint first_seen (seen : list str) (s : list str) : list str :=
  match s with
  | [] => []
  | x :: s' =>
      if existsb (str_eqb x) seen then first_seen seen s'
      else x :: first_seen (seen ++ [x]) s'
  end.

(** * Properties *)

(** ** Word count *)

Lemma split_ws_length (s : str) :
  forall cur,
    length (split_ws cur s) =
    match cur with
    | None => token_starts true s
    | Some _ => S (token_starts false s)
    end.
Proof.
  induction s as [|c s IH]; intros [w|]; simpl; trivial;
    destruct (isspace c); simpl; rewrite IH; reflexivity.
Qed.

Lemma word_count_tokens (x : option str) :
  length (split (fillna [] x)) = whitespace_token_count x.
Proof.
  destruct x as [s|]; simpl; trivial.
  unfold split. now rewrite split_ws_length.
Qed.

(** ** Column assignment seen row by row *)

Lemma combine_map_self (A B : Type) (f : A -> B) (l : list A) :
  combine l (map f l) = map (fun x => (x, f x)) l.
Proof.
  induction l as [|a l IH]; simpl; congruence.
Qed.

Lemma parse_dates_rows `{DatetimeParser} (df : RawFrame) :
  parse_dates df =
  map dated (combine df (to_datetime (map raw_publish_time df))).
Proof.
  unfold parse_dates, assign_year, dt_year.
  rewrite map_map, combine_map_self, map_map.
  unfold assign_publish_time. rewrite map_map.
  apply map_ext. intros [r d]. reflexivity.
Qed.

Lemma assign_word_count_rows (df : DataFrame) :
  assign_abstract_word_count df (abstract_word_counts df) = map counted df.
Proof.
  unfold assign_abstract_word_count, abstract_word_counts.
  rewrite !map_map, combine_map_self, map_map.
  apply map_ext. intros r. reflexivity.
Qed.

Lemma parse_dates_length `{DatetimeParser} (df : RawFrame) :
  length (parse_dates df) = length df.
Proof.
  rewrite parse_dates_rows, length_map, length_combine,
    to_datetime_length, length_map.
  apply Nat.min_id.
Qed.

Lemma combine_fst_full (A B : Type) (l : list A) (l' : list B) :
  length l' = length l -> map fst (combine l l') = l.
Proof.
  revert l'. induction l as [|a l IH]; intros [|b l'] E; simpl in *;
    try discriminate; trivial.
  f_equal. apply IH. congruence.
Qed.

Lemma combine_snd_full (A B : Type) (l : list A) (l' : list B) :
  length l' = length l -> map snd (combine l l') = l'.
Proof.
  revert l'. induction l as [|a l IH]; intros [|b l'] E; simpl in *;
    try discriminate; trivial.
  f_equal. apply IH. congruence.
Qed.

Lemma parse_dates_publish_time `{DatetimeParser} (df : RawFrame) :
  map publish_time (parse_dates df) = to_datetime (map raw_publish_time df).
Proof.
  rewrite parse_dates_rows, map_map. simpl.
  apply combine_snd_full.
  now rewrite to_datetime_length, length_map.
Qed.

Lemma parse_dates_abstract `{DatetimeParser} (df : RawFrame) :
  map abstract (parse_dates df) = map raw_abstract df.
Proof.
  rewrite parse_dates_rows, map_map. simpl.
  rewrite <- (map_map fst raw_abstract). f_equal.
  apply combine_fst_full.
  now rewrite to_datetime_length, length_map.
Qed.

Lemma load_data_rows `{DatetimeParser} (df : RawFrame) :
  App.load_data df = map counted (parse_dates df).
Proof.
  unfold App.load_data. apply assign_word_count_rows.
Qed.

Lemma clean_data_rows `{DatetimeParser} (df : RawFrame) :
  Analysis.cleaned (Analysis.clean_data df) =
  map counted (dropna_title_year (parse_dates df)).
Proof.
  unfold Analysis.clean_data. simpl. apply assign_word_count_rows.
Qed.

Lemma filter_map_commute (A B : Type) (f : A -> B) (p : B -> bool) (l : list A) :
  filter p (map f l) = map f (filter (fun x => p (f x)) l).
Proof.
  induction l as [|a l IH]; simpl; trivial.
  destruct (p (f a)); simpl; congruence.
Qed.

Lemma filter_length_le_id (A : Type) (p : A -> bool) (l : list A) :
  filter p l = l <-> Forall (fun x => p x = true) l.
Proof.
  split.
  - intros E. apply Forall_forall. intros x Hx.
    rewrite <- E in Hx. apply filter_In in Hx. tauto.
  - induction 1 as [|x l Hx _ IH]; simpl; trivial.
    rewrite Hx. congruence.
Qed.

Lemma has_title_and_year_retained (r : PaperRecord) :
  has_title_and_year r = true <-> retained r.
Proof.
  unfold has_title_and_year, retained.
  destruct (title r), (year r); simpl; split; intros; try easy;
    try (split; congruence); tauto.
Qed.

Lemma dropna_title_year_counted (df : DataFrame) :
  dropna_title_year (map counted df) = map counted (dropna_title_year df).
Proof.
  unfold dropna_title_year. rewrite filter_map_commute.
  f_equal.
Qed.

(** ** Interactive load against the batch Cleaner *)

(** C1, as stated, fails: on a table whose only row has no title the
    interactive [load_data] keeps the row and the batch [clean_data] drops
    it, so the two tables differ. *)
Lemma load_data_keeps_dropped_rows :
  Analysis.cleaned (@Analysis.clean_data iso_parser [sample_untitled]) = [] /\
  length (@App.load_data iso_parser [sample_untitled]) = 1 /\
  @App.load_data iso_parser [sample_untitled] <>
  Analysis.cleaned (@Analysis.clean_data iso_parser [sample_untitled]).
Proof.
  split; [reflexivity|]. split; [reflexivity|].
  vm_compute. discriminate.
Qed.

(** C1, amended: the interactive [load_data] performs the same date parsing,
    year derivation and word count as the batch Cleaner but drops no row.
    The batch table is the interactive table without the rows whose title
    or year is absent, and the two tables are equal exactly when the
    interactive table has no such row. *)
Theorem clean_data_is_load_data_less_dropped :
  forall (P : DatetimeParser) (df : RawFrame),
    Analysis.load_data (ReadOk df) = inl df /\
    Analysis.cleaned (Analysis.clean_data df) =
      dropna_title_year (App.load_data df) /\
    length (App.load_data df) = length df /\
    (App.load_data df = Analysis.cleaned (Analysis.clean_data df) <->
     Forall retained (App.load_data df)).
Proof.
  intros P df.
  assert (E : Analysis.cleaned (Analysis.clean_data df) =
              dropna_title_year (App.load_data df)).
  { rewrite clean_data_rows, load_data_rows.
    symmetry. apply dropna_title_year_counted. }
  split; [reflexivity|]. split; [exact E|]. split.
  - rewrite load_data_rows, length_map. apply parse_dates_length.
  - rewrite E. unfold dropna_title_year. split.
    + intros H. symmetry in H. apply filter_length_le_id in H.
      eapply Forall_impl; [|exact H].
      intros r. apply has_title_and_year_retained.
    + intros H. symmetry. apply filter_length_le_id.
      eapply Forall_impl; [|exact H].
      intros r. apply has_title_and_year_retained.
Qed.

(** ** Retained records *)

Lemma filter_year_incl (year_range : Z * Z) (df : DataFrame) (P : PaperRecord -> Prop) :
  Forall P df -> Forall P (filter_year year_range df).
Proof.
  intros H. apply Forall_forall. intros r Hr.
  apply filter_In in Hr. destruct Hr as [Hr _].
  revert r Hr. now apply Forall_forall.
Qed.

Lemma cleaned_retained `{DatetimeParser} (df : RawFrame) :
  Forall retained (Analysis.cleaned (Analysis.clean_data df)).
Proof.
  rewrite clean_data_rows. apply Forall_forall. intros r Hr.
  apply in_map_iff in Hr. destruct Hr as [r0 [<- Hr0]].
  apply filter_In in Hr0. destruct Hr0 as [_ Hr0].
  apply has_title_and_year_retained in Hr0. exact Hr0.
Qed.

(** C2: every record of the table the Cleaner returns has a title and a
    year, and so has every record of any year-range subset of that table;
    more generally the year-range filter keeps the property on every table
    that has it. *)
Theorem cleaned_records_have_title_and_year :
  forall (P : DatetimeParser) (df : RawFrame),
    Forall retained (Analysis.cleaned (Analysis.clean_data df)) /\
    (forall year_range : Z * Z,
        Forall retained
          (filter_year year_range (Analysis.cleaned (Analysis.clean_data df)))) /\
    (forall (year_range : Z * Z) (t : DataFrame),
        Forall retained t -> Forall retained (filter_year year_range t)).
Proof.
  intros P df. split; [apply cleaned_retained|]. split.
  - intros yr. apply filter_year_incl, cleaned_retained.
  - intros yr t. apply filter_year_incl.
Qed.

Lemma cleaned_records_have_title_and_year_witness :
  Forall retained (Analysis.cleaned (@Analysis.clean_data iso_parser
                     [sample_paper; sample_untitled; sample_undated])) /\
  Forall retained
    (filter_year (2020, 2021)%Z
       (Analysis.cleaned (@Analysis.clean_data iso_parser
                     [sample_paper; sample_untitled; sample_undated]))).
Proof.
  destruct (cleaned_records_have_title_and_year iso_parser
              [sample_paper; sample_untitled; sample_undated])
    as [H1 [H2 H3]].
  split; [exact H1|].
  apply H3. exact H1.
Defined.

(** ** Word count of the abstract *)

(** C3: in the table the Cleaner returns, and in the table the interactive
    load returns, every record's [abstract_word_count] is present and is the
    number of white-space separated tokens of its abstract, 0 when the
    abstract is absent; the abstract is the one read from the file.  The
    text "a b c" counts 3 and an absent abstract counts 0. *)
Theorem abstract_word_count_is_token_count :
  forall (P : DatetimeParser) (df : RawFrame),
    Forall (fun r => abstract_word_count r =
                     Some (whitespace_token_count (abstract r)))
           (Analysis.cleaned (Analysis.clean_data df)) /\
    Forall (fun r => abstract_word_count r <> None)
           (Analysis.cleaned (Analysis.clean_data df)) /\
    map abstract_word_count (App.load_data df) =
      map (fun r => Some (whitespace_token_count (raw_abstract r))) df /\
    length (split (py "a b c")) = 3 /\
    whitespace_token_count (Some (py "a b c")) = 3 /\
    map abstract_word_count
        (Analysis.cleaned (@Analysis.clean_data iso_parser
           [sample_paper;
            mkRaw (Some (py "Bat viruses")) None None (Some (py "2020-03-01"))]))
      = [Some 3; Some 0].
Proof.
  intros P df.
  assert (H : Forall (fun r => abstract_word_count r =
                               Some (whitespace_token_count (abstract r)))
                     (Analysis.cleaned (Analysis.clean_data df))).
  { rewrite clean_data_rows. apply Forall_forall. intros r Hr.
    apply in_map_iff in Hr. destruct Hr as [r0 [<- _]].
    simpl. now rewrite word_count_tokens. }
  split; [exact H|]. split.
  { eapply Forall_impl; [|exact H]. simpl. intros r E. rewrite E. discriminate. }
  split.
  { rewrite load_data_rows, map_map. simpl.
    rewrite <- (map_map abstract (fun x => Some (length (split (fillna [] x))))).
    rewrite parse_dates_abstract, map_map.
    apply map_ext. intros r. now rewrite word_count_tokens. }
  repeat split; reflexivity.
Qed.

(** ** Dates and years *)

Lemma parse_dates_year `{DatetimeParser} (df : RawFrame) :
  Forall (fun r => year r = option_map ts_year (publish_time r))
         (parse_dates df).
Proof.
  rewrite parse_dates_rows. apply Forall_forall. intros r Hr.
  apply in_map_iff in Hr. destruct Hr as [p [<- _]]. reflexivity.
Qed.

Lemma year_absent_iff_date_absent (r : PaperRecord) :
  year r = option_map ts_year (publish_time r) ->
  (year r = None <-> publish_time r = None).
Proof.
  intros ->. destruct (publish_time r); simpl; split; congruence.
Qed.








(** ** Dropped-row report *)

Lemma filter_partition_length (A : Type) (p : A -> bool) (l : list A) :
  length l = length (filter p l) + length (filter (fun x => negb (p x)) l).
Proof.
  induction l as [|a l IH]; simpl; trivial.
  destruct (p a); simpl; lia.
Qed.

(** C5: the number the Cleaner reports is the number of rows of the input
    table minus the number of rows of the returned table, and it is the
    number of records of the input table (with the year derived) whose
    title or year is absent. *)
Theorem dropped_count_is_rows_before_minus_after :
  forall (P : DatetimeParser) (df : RawFrame),
    Analysis.dropped (Analysis.clean_data df) =
      (Z.of_nat (length df) -
       Z.of_nat (length (Analysis.cleaned (Analysis.clean_data df))))%Z /\
    Analysis.dropped (Analysis.clean_data df) =
      Z.of_nat (length (filter title_or_year_absent (parse_dates df))).
Proof.
  intros P df.
  assert (E : Analysis.dropped (Analysis.clean_data df) =
              (Z.of_nat (length (parse_dates df)) -
               Z.of_nat (length (dropna_title_year (parse_dates df))))%Z)
    by reflexivity.
  split.
  - rewrite E, clean_data_rows, length_map, parse_dates_length. reflexivity.
  - rewrite E. unfold dropna_title_year.
    rewrite (filter_partition_length has_title_and_year (parse_dates df)) at 1.
    rewrite (filter_ext (fun r => negb (has_title_and_year r)) title_or_year_absent).
    + lia.
    + intros r. unfold has_title_and_year, title_or_year_absent.
      apply negb_andb.
Qed.

(** ** Year-range filter *)

Lemma mask_spec (lo hi : Z) (r : PaperRecord) :
  mask (lo, hi) r = true <-> exists y, year r = Some y /\ (lo <= y <= hi)%Z.
Proof.
  unfold mask, ge_cell, le_cell. simpl. destruct (year r) as [y|]; simpl.
  - rewrite andb_true_iff, !Z.leb_le. split.
    + intros H. exists y. split; trivial.
    + intros [y' [E H]]. inversion E. subst. exact H.
  - split; [discriminate|]. intros [y [E _]]. discriminate.
Qed.

(** C6: the year-range filter keeps exactly the records whose year lies in
    the closed interval, and filtering by the interval twice gives the same
    subset as filtering once. *)
Theorem filter_year_idempotent :
  forall (lo hi : Z) (df : DataFrame),
    filter_year (lo, hi) (filter_year (lo, hi) df) = filter_year (lo, hi) df /\
    (forall r, In r (filter_year (lo, hi) df) <->
               In r df /\ exists y, year r = Some y /\ (lo <= y <= hi)%Z).
Proof.
  intros lo hi df. split.
  - unfold filter_year.
    induction df as [|r df IH]; simpl; trivial.
    destruct (mask (lo, hi) r) eqn:E; simpl; rewrite ?E; congruence.
  - intros r. unfold filter_year. rewrite filter_In, mask_spec. tauto.
Qed.

(** ** Counting pass of [value_counts] *)

Section TallyFacts.

Variable K : Type.
Variable eqb : K -> K -> bool.
Hypothesis eqb_eq : forall a b, eqb a b = true <-> a = b.

Lemma eqb_refl_K (a : K) : eqb a a = true.
Proof. now apply eqb_eq. Qed.

Lemma eqb_neq_K (a b : K) : a <> b -> eqb a b = false.
Proof.
  intros N. destruct (eqb a b) eqn:E; trivial.
  apply eqb_eq in E. contradiction.
Qed.

Lemma bump_keys (k : K) (acc : list (K * nat)) (x : K) :
  In x (map fst (bump eqb k acc)) <-> x = k \/ In x (map fst acc).
Proof.
  induction acc as [|[k' n] acc IH]; simpl.
  - intuition.
  - destruct (eqb k k') eqn:E; simpl.
    + apply eqb_eq in E. subst. intuition.
    + rewrite IH. intuition.
Qed.

Lemma bump_NoDup (k : K) (acc : list (K * nat)) :
  NoDup (map fst acc) -> NoDup (map fst (bump eqb k acc)).
Proof.
  induction acc as [|[k' n] acc IH]; simpl; intros H.
  - constructor; [intros []|constructor].
  - inversion H as [|? ? Hnot Hrest]; subst.
    destruct (eqb k k') eqn:E; simpl.
    + constructor; assumption.
    + constructor; [|now apply IH].
      rewrite bump_keys. intros [->|Hin]; [|contradiction].
      rewrite eqb_refl_K in E. discriminate.
Qed.

Lemma bump_count_of (k : K) (acc : list (K * nat)) (x : K) :
  count_of eqb x (bump eqb k acc) =
  if eqb x k then S (count_of eqb x acc) else count_of eqb x acc.
Proof.
  induction acc as [|[k' n] acc IH]; simpl.
  - destruct (eqb x k); reflexivity.
  - destruct (eqb k k') eqn:E; simpl.
    + apply eqb_eq in E. subst k'. destruct (eqb x k); reflexivity.
    + destruct (eqb x k') eqn:E'; [|exact IH].
      apply eqb_eq in E'. subst k'.
      destruct (eqb x k) eqn:E''; trivial.
      apply eqb_eq in E''. subst. rewrite eqb_refl_K in E. discriminate.
Qed.

Lemma fold_bump_keys (s : list K) :
  forall acc x,
    In x (map fst (fold_left (fun a k => bump eqb k a) s acc)) <->
    In x s \/ In x (map fst acc).
Proof.
  induction s as [|k s IH]; intros acc x; simpl.
  - intuition.
  - rewrite IH, bump_keys. intuition.
Qed.

Lemma fold_bump_NoDup (s : list K) :
  forall acc,
    NoDup (map fst acc) ->
    NoDup (map fst (fold_left (fun a k => bump eqb k a) s acc)).
Proof.
  induction s as [|k s IH]; intros acc H; simpl; trivial.
  apply IH. now apply bump_NoDup.
Qed.

Lemma fold_bump_count_of (s : list K) :
  forall acc x,
    count_of eqb x (fold_left (fun a k => bump eqb k a) s acc) =
    occurrences eqb x s + count_of eqb x acc.
Proof.
  unfold occurrences.
  induction s as [|k s IH]; intros acc x; simpl; trivial.
  rewrite IH, bump_count_of. destruct (eqb x k); simpl; lia.
Qed.

Lemma count_of_entry (acc : list (K * nat)) (k : K) (n : nat) :
  NoDup (map fst acc) -> In (k, n) acc -> count_of eqb k acc = n.
Proof.
  induction acc as [|[k' n'] acc IH]; simpl; intros H Hin; [easy|].
  inversion H as [|? ? Hnot Hrest]; subst.
  destruct Hin as [E|Hin].
  - inversion E; subst. now rewrite eqb_refl_K.
  - destruct (eqb k k') eqn:E.
    + apply eqb_eq in E. subst k'. elim Hnot.
      apply in_map_iff. exists (k, n). split; trivial.
    + now apply IH.
Qed.

Lemma tally_keys (s : list K) (x : K) :
  In x (map fst (tally eqb s)) <-> In x s.
Proof.
  unfold tally. rewrite fold_bump_keys. simpl. tauto.
Qed.

Lemma tally_NoDup (s : list K) : NoDup (map fst (tally eqb s)).
Proof.
  unfold tally. apply fold_bump_NoDup. constructor.
Qed.

Lemma tally_count (s : list K) (k : K) (n : nat) :
  In (k, n) (tally eqb s) -> n = occurrences eqb k s.
Proof.
  intros Hin. symmetry.
  rewrite <- (@count_of_entry _ k n (tally_NoDup s) Hin).
  unfold tally. rewrite fold_bump_count_of. simpl. lia.
Qed.

End TallyFacts.

(** ** Sorting *)

Section InsertionSortFacts.

Variable A : Type.
Variable leb : A -> A -> bool.
Hypothesis leb_total : forall a b, leb a b = true \/ leb b a = true.
Hypothesis leb_trans :
  forall a b c, leb a b = true -> leb b c = true -> leb a c = true.

Lemma insert_by_perm (e : A) (l : list A) :
  Permutation (e :: l) (insert_by leb e l).
Proof.
  induction l as [|e' l IH]; simpl; [reflexivity|].
  destruct (leb e e'); [reflexivity|].
  rewrite perm_swap. now constructor.
Qed.

Lemma sort_by_perm (l : list A) : Permutation l (sort_by leb l).
Proof.
  induction l as [|e l IH]; simpl; [constructor|].
  rewrite <- insert_by_perm. now constructor.
Qed.

Lemma insert_by_sorted (e : A) (l : list A) :
  StronglySorted (fun a b => leb a b = true) l ->
  StronglySorted (fun a b => leb a b = true) (insert_by leb e l).
Proof.
  induction 1 as [|e' l Hs IH Hall]; simpl.
  - constructor; constructor.
  - destruct (leb e e') eqn:E.
    + constructor; [now constructor|].
      constructor; [exact E|].
      eapply Forall_impl; [|exact Hall].
      intros x Hx. now apply leb_trans with e'.
    + constructor; [exact IH|].
      assert (E' : leb e' e = true)
        by (destruct (leb_total e e') as [H|H]; congruence).
      apply Forall_forall. intros x Hx.
      apply (Permutation_in _ (Permutation_sym (insert_by_perm e l))) in Hx.
      destruct Hx as [<-|Hx]; [exact E'|].
      rewrite Forall_forall in Hall. now apply Hall.
Qed.

Lemma sort_by_sorted (l : list A) :
  StronglySorted (fun a b => leb a b = true) (sort_by leb l).
Proof.
  induction l as [|e l IH]; simpl; [constructor|].
  now apply insert_by_sorted.
Qed.

End InsertionSortFacts.

Lemma StronglySorted_weaken (A : Type) (R R' : A -> A -> Prop) (l : list A) :
  (forall a b, In a l -> In b l -> R a b -> R' a b) ->
  StronglySorted R l -> StronglySorted R' l.
Proof.
  intros H Hs. induction Hs as [|a l Hs IH Hall]; constructor.
  - apply IH. intros x y Hx Hy. apply H; now right.
  - rewrite Forall_forall in *. intros x Hx.
    apply H; [now left|now right|now apply Hall].
Qed.

Lemma head_incl (A : Type) (n : nat) (l : list A) (x : A) :
  In x (head n l) -> In x l.
Proof.
  unfold head. intros H.
  rewrite <- (firstn_skipn n l). apply in_or_app. now left.
Qed.

Lemma StronglySorted_head (A : Type) (R : A -> A -> Prop) (n : nat) (l : list A) :
  StronglySorted R l -> StronglySorted R (head n l).
Proof.
  unfold head. intros Hs. revert n.
  induction Hs as [|a l Hs IH Hall]; intros [|n]; simpl; try constructor.
  - apply IH.
  - rewrite Forall_forall in *. intros x Hx. apply Hall.
    eapply head_incl. exact Hx.
Qed.

Lemma insertion_sort_desc_perm (K : Type) (l : list (K * nat)) :
  Permutation l (insertion_sort_desc l).
Proof. apply sort_by_perm. Qed.

Lemma insertion_sort_desc_sorted (K : Type) (l : list (K * nat)) :
  StronglySorted (fun a b => snd b <= snd a) (insertion_sort_desc l).
Proof.
  eapply StronglySorted_weaken; [|apply sort_by_sorted].
  - intros a b _ _ H. now apply Nat.leb_le in H.
  - intros a b. rewrite !Nat.leb_le. lia.
  - intros a b c. rewrite !Nat.leb_le. lia.
Qed.

#[export] Instance stable_sorter : Sorter := {
  sort_values := insertion_sort_desc;
  sort_values_perm := insertion_sort_desc_perm;
  sort_values_desc := insertion_sort_desc_sorted
}.

(** ** Frequency tables *)

Lemma option_eqb_eq (K : Type) (eqb : K -> K -> bool) :
  (forall a b, eqb a b = true <-> a = b) ->
  forall a b, option_eqb eqb a b = true <-> a = b.
Proof.
  intros H [a|] [b|]; simpl; try (split; congruence).
  rewrite H. split; congruence.
Qed.

Lemma str_eqb_eq (a b : str) : str_eqb a b = true <-> a = b.
Proof.
  unfold str_eqb. destruct (list_eq_dec N.eq_dec a b); split; congruence.
Qed.

Lemma dropna_In (A : Type) (s : list (option A)) (a : A) :
  In a (dropna s) <-> In (Some a) s.
Proof.
  unfold dropna. rewrite in_flat_map. split.
  - intros [[x|] [Hin Hx]]; simpl in Hx; [|easy].
    destruct Hx as [->|[]]. exact Hin.
  - intros H. exists (Some a). split; [exact H|now left].
Qed.

Lemma filter_notna_In (A : Type) (s : list (option A)) (x : option A) :
  In x (filter notna s) <-> exists a, x = Some a /\ In (Some a) s.
Proof.
  rewrite filter_In. split.
  - intros [Hin Hx]. destruct x as [a|]; [|discriminate].
    exists a. now split.
  - intros [a [-> Hin]]. now split.
Qed.

Section ValueCountsFacts.

Context `{Sorter}.
Variable K : Type.
Variable eqb : K -> K -> bool.
Hypothesis eqb_eq : forall a b, eqb a b = true <-> a = b.

Lemma value_counts_perm (d : bool) (s : list (option K)) :
  Permutation (tally (option_eqb eqb) (if d then filter notna s else s))
              (value_counts eqb d s).
Proof. apply sort_values_perm. Qed.

Lemma value_counts_NoDup (d : bool) (s : list (option K)) :
  NoDup (map fst (value_counts eqb d s)).
Proof.
  eapply Permutation_NoDup.
  - apply Permutation_map, value_counts_perm.
  - apply tally_NoDup, option_eqb_eq, eqb_eq.
Qed.

Lemma value_counts_keys (d : bool) (s : list (option K)) (k : option K) :
  In k (map fst (value_counts eqb d s)) <->
  In k (if d then filter notna s else s).
Proof.
  pose proof (@tally_keys _ _ (option_eqb_eq eqb eqb_eq)
                (if d then filter notna s else s) k) as T.
  pose proof (Permutation_map fst (value_counts_perm d s)) as Hp.
  split; intros Hk.
  - apply T. eapply Permutation_in; [apply Permutation_sym, Hp|exact Hk].
  - eapply Permutation_in; [exact Hp|]. now apply T.
Qed.

Lemma value_counts_count (d : bool) (s : list (option K)) (k : option K) (n : nat) :
  In (k, n) (value_counts eqb d s) ->
  n = occurrences (option_eqb eqb) k (if d then filter notna s else s).
Proof.
  intros Hin. apply (@tally_count _ _ (option_eqb_eq eqb eqb_eq)).
  eapply Permutation_in; [|exact Hin].
  apply Permutation_sym, value_counts_perm.
Qed.

Lemma value_counts_length (s : list (option K)) (distinct : list K) :
  NoDup distinct ->
  (forall a, In a distinct <-> In (Some a) s) ->
  length (value_counts eqb true s) = length distinct.
Proof.
  intros Hnd Hin.
  rewrite <- (length_map fst), <- (length_map (@Some K) distinct).
  apply Permutation_length, NoDup_Permutation.
  - apply value_counts_NoDup.
  - clear Hin. induction Hnd as [|a l Ha _ IH]; simpl; constructor; trivial.
    rewrite in_map_iff. intros [b [E Hb]]. inversion E. now subst.
  - intros k. rewrite value_counts_keys, filter_notna_In, in_map_iff.
    split.
    + intros [a [-> Ha]]. exists a. split; trivial. now apply Hin.
    + intros [a [<- Ha]]. exists a. split; trivial. now apply Hin.
Qed.

Lemma value_counts_present (s : list (option K)) :
  Forall (fun e => exists a, fst e = Some a /\ In (Some a) s /\
                             snd e = occurrences (option_eqb eqb) (Some a)
                                       (filter notna s))
         (value_counts eqb true s).
Proof.
  apply Forall_forall. intros [k n] Hin.
  assert (Hk : In k (map fst (value_counts eqb true s)))
    by (apply in_map_iff; exists (k, n); now split).
  apply value_counts_keys, filter_notna_In in Hk.
  destruct Hk as [a [-> Ha]].
  exists a. repeat split; trivial.
  now apply value_counts_count in Hin.
Qed.

End ValueCountsFacts.

Arguments value_counts_NoDup {H K eqb} eqb_eq d s.
Arguments value_counts_keys {H K eqb} eqb_eq d s k.
Arguments value_counts_count {H K eqb} eqb_eq d s k n _.
Arguments value_counts_length {H K eqb} eqb_eq s distinct _ _.
Arguments value_counts_present {H K eqb} eqb_eq s.

Lemma occurrences_column (K : Type) (eqb : K -> K -> bool)
    (col : PaperRecord -> option K) (a : K) (df : DataFrame) :
  occurrences (option_eqb eqb) (Some a) (filter notna (map col df)) =
  length (filter (fun r => match col r with
                           | Some v => eqb a v
                           | None => false
                           end) df).
Proof.
  unfold occurrences.
  induction df as [|r df IH]; simpl; trivial.
  destruct (col r) as [v|]; simpl; trivial.
  destruct (eqb a v); simpl; congruence.
Qed.

Lemma journal_counts_present `{Sorter} (df : DataFrame) :
  Forall (fun e => exists j, fst e = Some j /\ In (Some j) (map journal df) /\
                             snd e = records_with_journal j df)
         (value_counts str_eqb true (map journal df)).
Proof.
  eapply Forall_impl; [|apply (value_counts_present str_eqb_eq)].
  intros e [j [E [Hin Hn]]]. exists j. repeat split; trivial.
  rewrite Hn. apply occurrences_column.
Qed.

Lemma Forall_head (A : Type) (P : A -> Prop) (n : nat) (l : list A) :
  Forall P l -> Forall P (head n l).
Proof.
  rewrite !Forall_forall. intros H x Hx. eapply H, head_incl, Hx.
Qed.

Lemma journal_counts_length `{Sorter} (df : DataFrame) :
  length (value_counts str_eqb true (map journal df)) =
  length (distinct_journals df).
Proof.
  apply (value_counts_length str_eqb_eq).
  - apply NoDup_nodup.
  - intros j. unfold distinct_journals. rewrite nodup_In. apply dropna_In.
Qed.

(** ** Top journals *)

(** C7: the top-journals view has at most 10 entries, in descending order
    of count, and each entry is a journal of the table with the number of
    its records.  When the table has fewer than 10 distinct journals the
    view has exactly one entry for each of them.  The interactive page
    shows the same view of the filtered table. *)
Theorem top_journals_at_most_ten_descending :
  forall (S : Sorter) (df : DataFrame),
    length (Analysis.top_journals df) <= 10 /\
    StronglySorted (fun a b => snd b <= snd a) (Analysis.top_journals df) /\
    Forall (fun e => exists j, fst e = Some j /\ In (Some j) (map journal df) /\
                               snd e = records_with_journal j df)
           (Analysis.top_journals df) /\
    (length (distinct_journals df) < 10 ->
       NoDup (map fst (Analysis.top_journals df)) /\
       length (Analysis.top_journals df) = length (distinct_journals df) /\
       forall j, In j (distinct_journals df) <->
                 In (Some j) (map fst (Analysis.top_journals df))) /\
    (forall year_range,
        App.top10 (App.render df year_range) =
        Analysis.top_journals (filter_year year_range df)).
Proof.
  intros S df. unfold Analysis.top_journals, journal_top10.
  split; [apply firstn_le_length|].
  split; [apply StronglySorted_head, sort_values_desc|].
  split; [apply Forall_head, journal_counts_present|].
  split; [|reflexivity].
  intros Hlt.
  assert (E : head 10 (value_counts str_eqb true (map journal df)) =
              value_counts str_eqb true (map journal df)).
  { apply firstn_all2. rewrite journal_counts_length. lia. }
  rewrite E. split; [apply (value_counts_NoDup str_eqb_eq)|].
  split; [apply journal_counts_length|].
  intros j. rewrite (value_counts_keys str_eqb_eq), filter_notna_In.
  unfold distinct_journals. rewrite nodup_In, dropna_In. split.
  - intros Hj. exists j. now split.
  - intros [a [Ea Ha]]. inversion Ea. now subst.
Qed.

Lemma top_journals_at_most_ten_descending_witness :
  length (distinct_journals sample_table) < 10 /\
  @Analysis.top_journals stable_sorter sample_table =
    [(Some (py "Nature"), 2); (Some (py "Lancet"), 1)] /\
  length (@Analysis.top_journals stable_sorter sample_table) =
    length (distinct_journals sample_table).
Proof.
  assert (Hlt : length (distinct_journals sample_table) < 10)
    by (vm_compute; lia).
  split; [exact Hlt|]. split; [reflexivity|].
  destruct (top_journals_at_most_ten_descending stable_sorter sample_table)
    as [_ [_ [_ [Hfew _]]]].
  destruct (Hfew Hlt) as [_ [Hlen _]]. exact Hlen.
Defined.

(** ** Publications by year *)

Lemma StronglySorted_distinct (A B : Type) (f : A -> B) (R : A -> A -> Prop)
    (l : list A) :
  StronglySorted R l -> NoDup (map f l) ->
  StronglySorted (fun a b => R a b /\ f a <> f b) l.
Proof.
  induction 1 as [|a l Hs IH Hall]; simpl; intros Hnd; constructor.
  - apply IH. now inversion Hnd.
  - inversion Hnd as [|? ? Hnot _]; subst.
    rewrite Forall_forall in *. intros x Hx. split; [now apply Hall|].
    intros E. apply Hnot. rewrite E. now apply in_map.
Qed.

Lemma label_leb_total (a b : option Z) :
  label_leb a b = true \/ label_leb b a = true.
Proof.
  destruct a, b; simpl; auto. rewrite !Z.leb_le. lia.
Qed.

Lemma label_leb_trans (a b c : option Z) :
  label_leb a b = true -> label_leb b c = true -> label_leb a c = true.
Proof.
  destruct a, b, c; simpl; trivial; try discriminate.
  rewrite !Z.leb_le. lia.
Qed.

Lemma sort_index_perm (l : list (option Z * nat)) :
  Permutation l (sort_index l).
Proof. apply sort_by_perm. Qed.

Lemma sort_index_sorted (l : list (option Z * nat)) :
  StronglySorted (fun a b => label_leb (fst a) (fst b) = true) (sort_index l).
Proof.
  apply sort_by_sorted.
  - intros a b. apply label_leb_total.
  - intros a b c. apply label_leb_trans.
Qed.

Lemma year_counts_present `{Sorter} (df : DataFrame) :
  Forall (fun e => exists y, fst e = Some y /\ In (Some y) (map year df) /\
                             snd e = records_with_year y df)
         (year_frequency df).
Proof.
  unfold year_frequency. apply Forall_forall. intros e He.
  apply (Permutation_in _ (Permutation_sym (sort_index_perm _))) in He.
  pose proof (value_counts_present Z.eqb_eq (map year df)) as Hall.
  rewrite Forall_forall in Hall.
  destruct (Hall e He) as [y [E [Hin Hn]]].
  exists y. repeat split; trivial.
  rewrite Hn. apply occurrences_column.
Qed.

(** C8: the year-frequency view is in strictly ascending order of year, so
    no year appears twice; a year has an entry exactly when some record of
    the table has it; and the count of an entry is the number of records
    with that year.  The interactive page shows the same view of the
    filtered table. *)
Theorem year_frequency_sorted_one_entry_per_year :
  forall (S : Sorter) (df : DataFrame),
    StronglySorted label_lt (Analysis.counts_year df) /\
    NoDup (map fst (Analysis.counts_year df)) /\
    (forall y, In (Some y) (map fst (Analysis.counts_year df)) <->
               In (Some y) (map year df)) /\
    Forall (fun e => exists y, fst e = Some y /\
                               snd e = records_with_year y df)
           (Analysis.counts_year df) /\
    (forall year_range,
        App.counts (App.render df year_range) =
        Analysis.counts_year (filter_year year_range df)) /\
    @Analysis.counts_year stable_sorter sample_table =
      [(Some 2019%Z, 1); (Some 2020%Z, 2)].
Proof.
  intros S df. unfold Analysis.counts_year.
  assert (Hnd : NoDup (map fst (year_frequency df))).
  { unfold year_frequency. eapply Permutation_NoDup.
    - apply Permutation_map, sort_index_perm.
    - apply (value_counts_NoDup Z.eqb_eq). }
  pose proof (year_counts_present df) as Hpres.
  split.
  { pose proof (StronglySorted_distinct fst (sort_index_sorted
                  (value_counts Z.eqb true (map year df))) Hnd) as Hs.
    eapply StronglySorted_weaken; [|exact Hs].
    rewrite Forall_forall in Hpres.
    intros a b Ha Hb [Hle Hne].
    destruct (Hpres a Ha) as [x [Ex _]], (Hpres b Hb) as [y [Ey _]].
    unfold label_lt. rewrite Ex, Ey in *. simpl in Hle.
    apply Z.leb_le in Hle.
    assert (x <> y) by congruence. lia. }
  split; [exact Hnd|]. split.
  { intros y. unfold year_frequency. split; intros Hy.
    - apply (Permutation_in _ (Permutation_sym
               (Permutation_map fst (sort_index_perm _)))) in Hy.
      apply (value_counts_keys Z.eqb_eq) in Hy.
      apply filter_In in Hy. tauto.
    - apply (Permutation_in _ (Permutation_map fst (sort_index_perm _))).
      apply (value_counts_keys Z.eqb_eq). apply filter_In. now split. }
  split; [|split; reflexivity].
  eapply Forall_impl; [|exact Hpres].
  intros e [y [E [_ Hn]]]. exists y. now split.
Qed.

(** ** Records without a journal *)

Lemma filter_notna_column (A : Type) (col : PaperRecord -> option A) (df : DataFrame) :
  filter notna (map col (filter (fun r => notna (col r)) df)) =
  filter notna (map col df).
Proof.
  induction df as [|r df IH]; simpl; trivial.
  destruct (notna (col r)) eqn:E; simpl; rewrite ?E; congruence.
Qed.

(** C10: no entry of the top-journals view stands for an absent journal;
    the view is the one computed from the records that have a journal, and
    the count of an entry is the number of records with that journal,
    however many records lack one.  The interactive page shows the same
    view of the filtered table. *)
Theorem absent_journals_are_not_counted :
  forall (S : Sorter) (df : DataFrame),
    Forall (fun e => fst e <> None) (Analysis.top_journals df) /\
    Analysis.top_journals df =
      Analysis.top_journals (filter (fun r => notna (journal r)) df) /\
    Forall (fun e => exists j, fst e = Some j /\
                               snd e = records_with_journal j df)
           (Analysis.top_journals df) /\
    (forall year_range,
        Forall (fun e => fst e <> None) (App.top10 (App.render df year_range))) /\
    @Analysis.top_journals stable_sorter sample_table =
      [(Some (py "Nature"), 2); (Some (py "Lancet"), 1)].
Proof.
  intros S df.
  assert (Hgen : forall t, Forall (fun e => exists j, fst e = Some j /\
                               snd e = records_with_journal j t)
                             (Analysis.top_journals t)).
  { intros t. unfold Analysis.top_journals, journal_top10.
    apply Forall_head.
    eapply Forall_impl; [|apply journal_counts_present].
    intros e [j [E [_ Hn]]]. exists j. now split. }
  assert (Hna : forall t, Forall (fun e => fst e <> None)
                                 (Analysis.top_journals t)).
  { intros t. eapply Forall_impl; [|apply Hgen].
    intros e [j [E _]]. rewrite E. discriminate. }
  split; [apply Hna|]. split.
  { unfold Analysis.top_journals, journal_top10, value_counts.
    now rewrite filter_notna_column. }
  split; [apply Hgen|]. split; [|reflexivity].
  intros yr. apply Hna.
Qed.

(** ** Records without a year in the interactive explorer *)

Lemma fold_min_le (l : list Z) :
  forall a, (fold_left Z.min l a <= a)%Z /\
            forall x, In x l -> (fold_left Z.min l a <= x)%Z.
Proof.
  induction l as [|b l IH]; intros a; simpl.
  - split; [lia|intros x []].
  - destruct (IH (Z.min a b)) as [H1 H2]. split; [lia|].
    intros x [<-|Hx]; [lia|now apply H2].
Qed.

Lemma fold_max_ge (l : list Z) :
  forall a, (a <= fold_left Z.max l a)%Z /\
            forall x, In x l -> (x <= fold_left Z.max l a)%Z.
Proof.
  induction l as [|b l IH]; intros a; simpl.
  - split; [lia|intros x []].
  - destruct (IH (Z.max a b)) as [H1 H2]. split; [lia|].
    intros x [<-|Hx]; [lia|now apply H2].
Qed.

Lemma year_bounds_cover (df : DataFrame) (min_year max_year : Z) :
  App.year_bounds df = Some (min_year, max_year) ->
  forall r y, In r df -> year r = Some y -> (min_year <= y <= max_year)%Z.
Proof.
  unfold App.year_bounds, series_min, series_max.
  intros Hb r y Hr Hy.
  assert (Hin : In y (dropna (map year df))).
  { apply dropna_In. rewrite <- Hy. now apply in_map. }
  destruct (dropna (map year df)) as [|a l]; [discriminate|].
  inversion Hb; subst.
  destruct (fold_min_le l a) as [m1 m2], (fold_max_ge l a) as [M1 M2].
  destruct Hin as [->|Hin]; [lia|].
  split; [now apply m2|now apply M2].
Qed.

Lemma filter_year_present (year_range : Z * Z) (df : DataFrame) :
  Forall (fun r => year r <> None) (filter_year year_range df).
Proof.
  apply Forall_forall. intros r Hr. apply filter_In in Hr.
  destruct Hr as [_ Hm]. destruct year_range as [lo hi].
  apply mask_spec in Hm. destruct Hm as [y [E _]]. congruence.
Qed.

(** C9: for every interval the filtered subset of the interactive table
    holds no record with an absent year, although the interactive table may
    hold such records.  On every page the script shows, the preview, the
    year counts and the scatter data have no absent year, the four charts
    are computed from the filtered subset, and with the slider at its
    default, the full range, the filtered subset is the interactive table
    without the records whose year is absent. *)
Theorem absent_year_excluded_from_filtered_subset :
  forall (P : DatetimeParser) (S : Sorter) (df0 : RawFrame),
    (forall year_range : Z * Z,
        Forall (fun r => year r <> None)
               (filter_year year_range (App.load_data df0))) /\
    (forall (selection : option (Z * Z)) (page : App.Page),
        App.main (ReadOk df0) selection = Some page ->
        Forall (fun r => year r <> None) (App.df_filtered page) /\
        Forall (fun e => snd e <> None) (App.preview page) /\
        Forall (fun e => fst e <> None) (App.counts page) /\
        Forall (fun e => fst e <> None) (App.scatter page) /\
        App.counts page = year_frequency (App.df_filtered page) /\
        App.top10 page = journal_top10 (App.df_filtered page) /\
        App.histogram page =
          dropna (map abstract_word_count (App.df_filtered page)) /\
        App.scatter page =
          map (fun r => (year r, abstract_word_count r)) (App.df_filtered page) /\
        (selection = None ->
         App.df_filtered page =
           filter (fun r => notna (year r)) (App.load_data df0))).
Proof.
  intros P S df0. split; [intros yr; apply filter_year_present|].
  intros selection page Hmain.
  unfold App.main, App.slider in Hmain. simpl in Hmain.
  destruct (App.year_bounds (App.load_data df0)) as [[min_year max_year]|] eqn:Hb;
    [|discriminate].
  destruct (min_year =? max_year)%Z; [discriminate|].
  inversion Hmain as [Hpage]. clear Hmain Hpage.
  set (yr := fillna (min_year, max_year) selection).
  pose proof (filter_year_present yr (App.load_data df0)) as Hpres.
  unfold App.render.
  cbn [App.df_filtered App.preview App.counts App.top10 App.histogram
       App.scatter].
  split; [exact Hpres|]. split.
  { apply Forall_head. apply Forall_forall. intros e He.
    apply in_map_iff in He. destruct He as [r [<- Hr]]. simpl.
    rewrite Forall_forall in Hpres. now apply Hpres. }
  split.
  { eapply Forall_impl; [|apply year_counts_present].
    intros e [y [E _]]. rewrite E. discriminate. }
  split.
  { apply Forall_forall. intros e He.
    apply in_map_iff in He. destruct He as [r [<- Hr]]. simpl.
    rewrite Forall_forall in Hpres. now apply Hpres. }
  repeat (split; [reflexivity|]).
  intros ->. subst yr. simpl. unfold filter_year.
  apply filter_ext_in. intros r Hr.
  destruct (year r) as [y|] eqn:Hy.
  - simpl. apply mask_spec. exists y. split; trivial.
    eapply year_bounds_cover; eassumption.
  - unfold mask, ge_cell. now rewrite Hy.
Qed.

Lemma absent_year_excluded_from_filtered_subset_witness :
  length (@App.load_data iso_parser
            [sample_paper; sample_older; sample_undated]) = 3 /\
  exists page,
    @App.main iso_parser stable_sorter
              (ReadOk [sample_paper; sample_older; sample_undated]) None
      = Some page /\
    length (App.df_filtered page) = 2 /\
    Forall (fun r => year r <> None) (App.df_filtered page).
Proof.
  split; [reflexivity|].
  eexists. split; [reflexivity|]. split; [reflexivity|].
  destruct (absent_year_excluded_from_filtered_subset iso_parser stable_sorter
              [sample_paper; sample_older; sample_undated]) as [_ Hpage].
  destruct (Hpage None _ eq_refl) as [H _]. exact H.
Defined.

(** * Further properties of the two scripts *)

(** ** Tokens of [split] *)

Lemma split_ws_tokens (s : str) :
  forall cur,
    match cur with
    | Some w => w <> [] /\ Forall (fun c => isspace c = false) w
    | None => True
    end ->
    Forall (fun w => w <> [] /\ Forall (fun c => isspace c = false) w)
           (split_ws cur s).
Proof.
  assert (Hrev : forall w : str,
             w <> [] /\ Forall (fun c => isspace c = false) w ->
             rev w <> [] /\ Forall (fun c => isspace c = false) (rev w)).
  { intros w [Hne Hall]. split.
    - intros E. apply Hne. rewrite <- (rev_involutive w), E. reflexivity.
    - apply Forall_rev. exact Hall. }
  induction s as [|c s IH]; intros cur Hcur; simpl.
  - destruct cur as [w|]; constructor; auto.
  - destruct (isspace c) eqn:E.
    + destruct cur as [w|]; [constructor; auto|]; now apply IH.
    + destruct cur as [w|]; apply IH.
      * destruct Hcur as [_ Hall]. split; [discriminate|].
        now constructor.
      * split; [discriminate|]. constructor; [exact E|constructor].
Qed.

Lemma split_ws_concat (s : str) :
  forall cur,
    concat (split_ws cur s) =
    match cur with
    | Some w => rev w
    | None => []
    end ++ filter (fun c => negb (isspace c)) s.
Proof.
  induction s as [|c s IH]; intros cur; simpl.
  - destruct cur as [w|]; simpl; now rewrite ?app_nil_r.
  - destruct (isspace c) eqn:E; simpl.
    + destruct cur as [w|]; simpl; rewrite IH; reflexivity.
    + destruct cur as [w|]; rewrite IH; simpl; trivial.
      now rewrite <- app_assoc.
Qed.

Lemma filter_nil_iff (A : Type) (p : A -> bool) (l : list A) :
  filter p l = [] <-> Forall (fun x => p x = false) l.
Proof.
  induction l as [|a l IH]; simpl.
  - split; trivial.
  - destruct (p a) eqn:E; split; intros H.
    + discriminate.
    + inversion H. congruence.
    + constructor; [exact E|now apply IH].
    + inversion H. now apply IH.
Qed.

Lemma split_nil_iff (s : str) :
  split s = [] <-> Forall (fun c => isspace c = true) s.
Proof.
  assert (Hc : concat (split s) = filter (fun c => negb (isspace c)) s)
    by apply (split_ws_concat s None).
  assert (Ht : Forall (fun w => w <> [] /\
                                Forall (fun c => isspace c = false) w)
                      (split s))
    by apply (split_ws_tokens s None I).
  split.
  - intros E. rewrite E in Hc. simpl in Hc. symmetry in Hc.
    apply filter_nil_iff in Hc.
    eapply Forall_impl; [|exact Hc]. simpl. intros c.
    now destruct (isspace c).
  - intros Hall.
    assert (E : filter (fun c => negb (isspace c)) s = []).
    { apply filter_nil_iff. eapply Forall_impl; [|exact Hall].
      simpl. intros c ->. reflexivity. }
    rewrite E in Hc. destruct (split s) as [|w l]; trivial.
    apply Forall_inv in Ht. destruct Ht as [Hne _].
    simpl in Hc. apply app_eq_nil in Hc. now elim Hne.
Qed.

(** X1: the words [x.split()] returns are never empty and hold no white
    space, and laid end to end they are the text with its white space
    removed; no word is returned exactly when the text is empty or all
    white space. *)
Theorem split_words_are_the_text_without_whitespace :
  forall s : str,
    Forall (fun w => w <> [] /\ Forall (fun c => isspace c = false) w)
           (split s) /\
    concat (split s) = filter (fun c => negb (isspace c)) s /\
    (split s = [] <-> Forall (fun c => isspace c = true) s).
Proof.
  intros s. split; [apply (split_ws_tokens s None I)|].
  split; [apply (split_ws_concat s None)|apply split_nil_iff].
Qed.

Lemma word_count_zero_iff_blank (x : option str) :
  length (split (fillna [] x)) = 0 <-> blank x.
Proof.
  rewrite length_zero_iff_nil, split_nil_iff.
  destruct x as [s|]; simpl; [tauto|]. split; trivial.
Qed.

(** X2: in the table of the interactive load and in the table the Cleaner
    returns, a record's word count is 0 exactly when its abstract is absent,
    empty or all white space. *)
Theorem word_count_zero_iff_abstract_blank :
  forall (P : DatetimeParser) (df : RawFrame),
    Forall (fun r => abstract_word_count r = Some 0 <-> blank (abstract r))
           (App.load_data df) /\
    Forall (fun r => abstract_word_count r = Some 0 <-> blank (abstract r))
           (Analysis.cleaned (Analysis.clean_data df)).
Proof.
  intros P df.
  assert (H : forall l, Forall (fun r => abstract_word_count r = Some 0 <->
                                         blank (abstract r)) (map counted l)).
  { intros l. apply Forall_forall. intros r Hr.
    apply in_map_iff in Hr. destruct Hr as [r0 [<- _]]. simpl.
    rewrite <- word_count_zero_iff_blank. split; congruence. }
  rewrite load_data_rows, clean_data_rows. split; apply H.
Qed.

(** ** Bounds of the slider *)

Lemma fold_min_attained (l : list Z) :
  forall a, In (fold_left Z.min l a) (a :: l).
Proof.
  induction l as [|b l IH]; intros a; simpl; [now left|].
  destruct (IH (Z.min a b)) as [E|Hin].
  - rewrite <- E. destruct (Z.min_spec a b) as [[_ ->]|[_ ->]]; auto.
  - right. now right.
Qed.

Lemma fold_max_attained (l : list Z) :
  forall a, In (fold_left Z.max l a) (a :: l).
Proof.
  induction l as [|b l IH]; intros a; simpl; [now left|].
  destruct (IH (Z.max a b)) as [E|Hin].
  - rewrite <- E. destruct (Z.max_spec a b) as [[_ ->]|[_ ->]]; auto.
  - right. now right.
Qed.

Lemma dropna_nil_iff (A : Type) (s : list (option A)) :
  dropna s = [] <-> Forall (fun x => x = None) s.
Proof.
  induction s as [|[a|] s IH]; simpl.
  - split; trivial.
  - split; [discriminate|]. intros H. inversion H. discriminate.
  - rewrite IH. split; intros H; [now constructor|now inversion H].
Qed.

Lemma year_of_some_row (df : DataFrame) (y : Z) :
  In y (dropna (map year df)) -> exists r, In r df /\ year r = Some y.
Proof.
  intros H. apply dropna_In, in_map_iff in H.
  destruct H as [r [E Hr]]. now exists r.
Qed.

(** X3: the slider bounds exist exactly when some record has a year.  When
    no record of the interactive table has one (in particular on an empty
    table) the script stops before showing anything, whatever the
    selection. *)
Theorem no_year_no_page :
  forall (P : DatetimeParser) (S : Sorter) (df0 : RawFrame),
    (App.year_bounds (App.load_data df0) = None <->
     Forall (fun r => year r = None) (App.load_data df0)) /\
    (Forall (fun r => year r = None) (App.load_data df0) ->
     forall selection, App.main (ReadOk df0) selection = None) /\
    (forall selection, App.main (ReadOk []) selection = None).
Proof.
  intros P S df0.
  assert (Hb : forall df, App.year_bounds df = None <->
                          Forall (fun r => year r = None) df).
  { intros df. unfold App.year_bounds, series_min, series_max.
    rewrite <- (Forall_map year (fun x => x = None)), <- dropna_nil_iff.
    destruct (dropna (map year df)); split; congruence. }
  split; [apply Hb|]. split.
  - intros Hall selection. unfold App.main. simpl.
    apply Hb in Hall. now rewrite Hall.
  - intros selection. reflexivity.
Qed.

Lemma no_year_no_page_witness :
  Forall (fun r => year r = None) (@App.load_data iso_parser [sample_undated]) /\
  @App.main iso_parser stable_sorter (ReadOk [sample_undated]) (Some (2019, 2021)%Z)
    = None.
Proof.
  assert (H : Forall (fun r => year r = None)
                     (@App.load_data iso_parser [sample_undated]))
    by (repeat constructor).
  split; [exact H|].
  destruct (no_year_no_page iso_parser stable_sorter [sample_undated])
    as [_ [Hnone _]].
  apply Hnone. exact H.
Defined.

(** X4: when the slider bounds exist, the lower bound is at most the upper
    bound, each is the year of some record of the table, and every year
    present in the table lies between them. *)
Theorem year_bounds_are_attained :
  forall (df : DataFrame) (min_year max_year : Z),
    App.year_bounds df = Some (min_year, max_year) ->
    (min_year <= max_year)%Z /\
    (exists r, In r df /\ year r = Some min_year) /\
    (exists r, In r df /\ year r = Some max_year) /\
    (forall r y, In r df -> year r = Some y -> (min_year <= y <= max_year)%Z).
Proof.
  intros df min_year max_year Hb.
  pose proof (year_bounds_cover df Hb) as Hcover.
  unfold App.year_bounds, series_min, series_max in Hb.
  destruct (dropna (map year df)) as [|a l] eqn:E; [discriminate|].
  inversion Hb; subst. clear Hb.
  assert (Hmin : exists r, In r df /\ year r = Some (fold_left Z.min l a)).
  { apply year_of_some_row. rewrite E. apply fold_min_attained. }
  assert (Hmax : exists r, In r df /\ year r = Some (fold_left Z.max l a)).
  { apply year_of_some_row. rewrite E. apply fold_max_attained. }
  split; [|tauto].
  destruct Hmin as [r [Hr Hy]]. destruct (Hcover r _ Hr Hy). lia.
Qed.

Lemma year_bounds_are_attained_witness :
  App.year_bounds sample_table = Some (2019, 2020)%Z /\
  (2019 <= 2020)%Z /\
  exists r, In r sample_table /\ year r = Some 2019%Z.
Proof.
  assert (H : App.year_bounds sample_table = Some (2019, 2020)%Z)
    by reflexivity.
  split; [exact H|].
  destruct (year_bounds_are_attained sample_table H) as [Hle [Hmin _]].
  split; [exact Hle|exact Hmin].
Defined.

(** ** Composition of year-range filters *)

Lemma mask_inter (a b c d : Z) (r : PaperRecord) :
  mask (a, b) r && mask (c, d) r = mask (Z.max a c, Z.min b d) r.
Proof.
  unfold mask, ge_cell, le_cell. simpl.
  destruct (year r) as [y|]; simpl; trivial.
  destruct (a <=? y)%Z eqn:E1, (y <=? b)%Z eqn:E2,
           (c <=? y)%Z eqn:E3, (y <=? d)%Z eqn:E4; simpl;
    repeat match goal with
           | H : (_ <=? _)%Z = true |- _ => apply Z.leb_le in H
           | H : (_ <=? _)%Z = false |- _ => apply Z.leb_gt in H
           end;
    symmetry;
    first [ apply andb_true_iff; split; apply Z.leb_le; lia
          | apply andb_false_iff;
            first [ left; apply Z.leb_gt; lia | right; apply Z.leb_gt; lia ] ].
Qed.

Lemma filter_twice (A : Type) (p q : A -> bool) (l : list A) :
  filter p (filter q l) = filter (fun x => p x && q x) l.
Proof.
  induction l as [|a l IH]; simpl; trivial.
  destruct (q a); simpl; rewrite ?andb_true_r, ?andb_false_r;
    [destruct (p a)|]; congruence.
Qed.

(** X5: filtering by one year interval and then by another keeps the
    records whose year lies in both, the same as filtering once by the
    intersection of the two intervals; the order of the two filters does
    not matter, and an interval whose upper end is below its lower end
    keeps nothing. *)
Theorem filter_year_compose :
  forall (a b c d : Z) (df : DataFrame),
    filter_year (a, b) (filter_year (c, d) df) =
      filter_year (Z.max a c, Z.min b d) df /\
    filter_year (a, b) (filter_year (c, d) df) =
      filter_year (c, d) (filter_year (a, b) df) /\
    ((b < a)%Z -> filter_year (a, b) df = []).
Proof.
  intros a b c d df. unfold filter_year.
  assert (E : forall a b c d, filter (mask (a, b)) (filter (mask (c, d)) df) =
                              filter (mask (Z.max a c, Z.min b d)) df).
  { intros. rewrite filter_twice. apply filter_ext. intros r. apply mask_inter. }
  split; [apply E|]. split.
  - rewrite !E. rewrite (Z.max_comm a c), (Z.min_comm b d). reflexivity.
  - intros Hlt. apply filter_nil_iff. apply Forall_forall. intros r _.
    destruct (mask (a, b) r) eqn:Em; trivial.
    apply mask_spec in Em. destruct Em as [y [_ Hy]]. lia.
Qed.

Lemma filter_year_compose_witness :
  (2019 < 2020)%Z /\ filter_year (2020, 2019)%Z sample_table = [].
Proof.
  split; [lia|].
  destruct (filter_year_compose 2020 2019 0 0 sample_table) as [_ [_ H]].
  apply H. lia.
Defined.

(** ** Totals of the frequency tables *)

Lemma total_bump (K : Type) (eqb : K -> K -> bool) (k : K) (acc : list (K * nat)) :
  total (bump eqb k acc) = S (total acc).
Proof.
  unfold total. induction acc as [|[k' n] acc IH]; simpl; trivial.
  destruct (eqb k k'); simpl; lia.
Qed.

Lemma total_tally (K : Type) (eqb : K -> K -> bool) (s : list K) :
  total (tally eqb s) = length s.
Proof.
  unfold tally.
  assert (H : forall acc, total (fold_left (fun a k => bump eqb k a) s acc) =
                          length s + total acc).
  { induction s as [|k s IH]; intros acc; simpl; trivial.
    rewrite IH, total_bump. lia. }
  rewrite H. unfold total. simpl. lia.
Qed.

Lemma total_perm (K : Type) (l l' : list (K * nat)) :
  Permutation l l' -> total l = total l'.
Proof.
  unfold total. induction 1; simpl; lia.
Qed.

Lemma total_value_counts `{Sorter} (K : Type) (eqb : K -> K -> bool)
    (s : list (option K)) :
  total (value_counts eqb true s) = length (filter notna s).
Proof.
  unfold value_counts.
  rewrite <- (total_perm (sort_values_perm _)). apply total_tally.
Qed.

Lemma filter_notna_map_length (A : Type) (col : PaperRecord -> option A)
    (df : DataFrame) :
  length (filter notna (map col df)) =
  length (filter (fun r => notna (col r)) df).
Proof.
  rewrite filter_map_commute. apply length_map.
Qed.

Lemma total_year_frequency `{Sorter} (df : DataFrame) :
  total (year_frequency df) = length (filter (fun r => notna (year r)) df).
Proof.
  unfold year_frequency.
  rewrite <- (total_perm (sort_index_perm _)), total_value_counts.
  apply filter_notna_map_length.
Qed.

Lemma filter_all_length (A : Type) (p : A -> bool) (l : list A) :
  Forall (fun x => p x = true) l -> length (filter p l) = length l.
Proof.
  intros H. apply filter_length_le_id in H. now rewrite H.
Qed.

Lemma total_head_le (K : Type) (n : nat) (l : list (K * nat)) :
  total (head n l) <= total l.
Proof.
  unfold total, head. rewrite <- (firstn_skipn n l) at 2.
  rewrite map_app, list_sum_app. lia.
Qed.

(** X6: on the interactive page the counts of the year chart add up to the
    number of papers shown above it, and the counts of the journal chart
    add up to at most that number. *)
Theorem page_year_counts_add_up_to_n_papers :
  forall (S : Sorter) (df : DataFrame) (year_range : Z * Z),
    total (App.counts (App.render df year_range)) =
      App.n_papers (App.render df year_range) /\
    total (App.top10 (App.render df year_range)) <=
      App.n_papers (App.render df year_range).
Proof.
  intros S df yr. unfold App.render.
  cbn [App.counts App.n_papers App.top10]. split.
  - rewrite total_year_frequency. apply filter_all_length.
    eapply Forall_impl; [|apply filter_year_present].
    simpl. intros r Hr. now destruct (year r).
  - unfold journal_top10.
    eapply Nat.le_trans; [apply total_head_le|].
    rewrite total_value_counts, filter_notna_map_length.
    apply filter_length_le.
Qed.

(** X7: in a run of the batch script that reads its file, the counts of
    the publications-by-year table add up to the number of rows of the
    cleaned table, and together with the reported number of dropped rows to
    the number of rows read. *)
Theorem batch_year_counts_add_up_to_cleaned_rows :
  forall (P : DatetimeParser) (S : Sorter) (res : ReadResult) (df0 : RawFrame)
         (c : Analysis.Cleaned) (cy : list (option Z * nat))
         (tj : list (option str * nat)),
    res = ReadOk df0 ->
    Analysis.main res = inl (c, cy, tj) ->
    total cy = length (Analysis.cleaned c) /\
    (Z.of_nat (total cy) + Analysis.dropped c = Z.of_nat (length df0))%Z.
Proof.
  intros P S res df0 c cy tj -> Hmain.
  change (inl (Analysis.clean_data df0,
               Analysis.counts_year (Analysis.cleaned (Analysis.clean_data df0)),
               Analysis.top_journals (Analysis.cleaned (Analysis.clean_data df0)))
          = inl (B := Z) (c, cy, tj)) in Hmain.
  injection Hmain as <- <- _.
  assert (E : total (Analysis.counts_year
                       (Analysis.cleaned (Analysis.clean_data df0))) =
              length (Analysis.cleaned (Analysis.clean_data df0))).
  { unfold Analysis.counts_year. rewrite total_year_frequency.
    apply filter_all_length.
    eapply Forall_impl; [|apply cleaned_retained].
    intros r [_ Hy]. now destruct (year r). }
  assert (Ed : Analysis.dropped (Analysis.clean_data df0) =
               (Z.of_nat (length (parse_dates df0)) -
                Z.of_nat (length (dropna_title_year (parse_dates df0))))%Z)
    by reflexivity.
  assert (E2 : (Z.of_nat (total (Analysis.counts_year
                            (Analysis.cleaned (Analysis.clean_data df0)))) +
                Analysis.dropped (Analysis.clean_data df0) =
                Z.of_nat (length df0))%Z).
  { rewrite E, clean_data_rows, length_map, Ed, parse_dates_length. lia. }
  split; [exact E|exact E2].
Qed.

Lemma batch_year_counts_add_up_to_cleaned_rows_witness :
  exists c cy tj,
    @Analysis.main iso_parser stable_sorter
       (ReadOk [sample_paper; sample_untitled; sample_undated]) = inl (c, cy, tj) /\
    total cy = 1 /\
    (Z.of_nat (total cy) + Analysis.dropped c = 3)%Z.
Proof.
  eexists. eexists. eexists. split; [reflexivity|].
  destruct (@batch_year_counts_add_up_to_cleaned_rows iso_parser stable_sorter
              _ [sample_paper; sample_untitled; sample_undated] _ _ _
              eq_refl eq_refl) as [H1 H2].
  split; [exact H1|exact H2].
Defined.

(** ** The entries left out of a top-ten view *)

Lemma head_dominates (A : Type) (R : A -> A -> Prop) (n : nat) (l : list A) :
  StronglySorted R l ->
  forall x y, In x (head n l) -> In y (skipn n l) -> R x y.
Proof.
  unfold head. intros Hs. revert n.
  induction Hs as [|a l Hs IH Hall]; intros [|n] x y Hx Hy; simpl in *;
    try contradiction.
  destruct Hx as [<-|Hx].
  - rewrite Forall_forall in Hall. apply Hall.
    rewrite <- (firstn_skipn n l). apply in_or_app. now right.
  - now apply (IH n).
Qed.

Lemma head_or_rest (A : Type) (n : nat) (l : list A) (x : A) :
  In x l -> In x (head n l) \/ In x (skipn n l).
Proof.
  unfold head. intros H. rewrite <- (firstn_skipn n l) in H.
  now apply in_app_or.
Qed.

Lemma head_full (A : Type) (n : nat) (l : list A) (y : A) :
  In y (skipn n l) -> length (head n l) = n.
Proof.
  unfold head. intros Hy. apply firstn_length_le.
  destruct (Nat.le_gt_cases n (length l)) as [Hle|Hgt]; trivial.
  rewrite skipn_all2 in Hy by lia. contradiction.
Qed.

(** X8: a journal of the table that has no entry in the top-journals view
    is left out only because the view is full, and it has no more records
    than any journal shown: the view has ten entries and each of their
    counts is at least the number of records of the journal left out. *)
Theorem top_journals_are_the_most_frequent :
  forall (S : Sorter) (df : DataFrame) (j : str),
    In (Some j) (map journal df) ->
    ~ In (Some j) (map fst (Analysis.top_journals df)) ->
    length (Analysis.top_journals df) = 10 /\
    Forall (fun e => records_with_journal j df <= snd e)
           (Analysis.top_journals df).
Proof.
  intros S df j Hj Hout. unfold Analysis.top_journals, journal_top10 in *.
  set (vc := value_counts str_eqb true (map journal df)) in *.
  assert (Hk : In (Some j) (map fst vc)).
  { apply (value_counts_keys str_eqb_eq). apply filter_In. now split. }
  apply in_map_iff in Hk. destruct Hk as [[k c] [Ek He]]. simpl in Ek. subst k.
  assert (Hc : c = records_with_journal j df).
  { pose proof (journal_counts_present df) as Hall.
    rewrite Forall_forall in Hall.
    destruct (Hall _ He) as [j' [E [_ Hn]]]. simpl in E, Hn.
    inversion E. now subst. }
  destruct (head_or_rest 10 vc _ He) as [Hin|Hrest].
  { elim Hout. apply in_map_iff. exists (Some j, c). now split. }
  split; [eapply head_full; exact Hrest|].
  apply Forall_forall. intros e Hin.
  pose proof (head_dominates 10 (sort_values_desc (tally (option_eqb str_eqb)
                (filter notna (map journal df)))) e (Some j, c) Hin Hrest) as Hd.
  simpl in Hd. now rewrite <- Hc.
Qed.

Lemma top_journals_are_the_most_frequent_witness :
  In (Some [75%N]) (map journal sample_eleven) /\
  length (@Analysis.top_journals stable_sorter sample_eleven) = 10 /\
  Forall (fun e => records_with_journal [75%N] sample_eleven <= snd e)
         (@Analysis.top_journals stable_sorter sample_eleven).
Proof.
  assert (Hin : In (Some [75%N]) (map journal sample_eleven))
    by (simpl; tauto).
  assert (Hout : ~ In (Some [75%N])
                      (map fst (@Analysis.top_journals stable_sorter sample_eleven))).
  { vm_compute. intuition discriminate. }
  split; [exact Hin|].
  exact (@top_journals_are_the_most_frequent stable_sorter sample_eleven
           [75%N] Hin Hout).
Defined.

(** ** Most common title words *)

Lemma occurrences_app (K : Type) (eqb : K -> K -> bool) (k : K) (s t : list K) :
  occurrences eqb k (s ++ t) = occurrences eqb k s + occurrences eqb k t.
Proof.
  unfold occurrences. now rewrite filter_app, length_app.
Qed.

Lemma occurrences_long (w : str) (titles : list (list str)) :
  5 < length w ->
  occurrences str_eqb w
    (flat_map (fun title => filter (fun word => 5 <? length word) title) titles) =
  occurrences str_eqb w (concat titles).
Proof.
  intros Hw. induction titles as [|t titles IH]; cbn [flat_map concat]; trivial.
  rewrite !occurrences_app. f_equal; [|exact IH].
  unfold occurrences. rewrite filter_twice. f_equal.
  apply filter_ext. intros x.
  destruct (str_eqb w x) eqn:E; simpl; trivial.
  apply str_eqb_eq in E. subst x. now apply Nat.ltb_lt.
Qed.

Lemma occurrences_pos (w : str) (s : list str) :
  In w s -> 1 <= occurrences str_eqb w s.
Proof.
  intros H. unfold occurrences.
  assert (Hin : In w (filter (str_eqb w) s)).
  { apply filter_In. split; trivial. now apply str_eqb_eq. }
  destruct (filter (str_eqb w) s); [contradiction|simpl; lia].
Qed.

Lemma long_title_words_spec `{CaseMapping} (df : DataFrame) (w : str) :
  In w (long_title_words df) <->
  5 < length w /\ exists t, In (Some t) (map title df) /\ In w (split (lower t)).
Proof.
  unfold long_title_words, Analysis.all_titles.
  rewrite in_flat_map. split.
  - intros [ws [Hws Hw]]. apply filter_In in Hw. destruct Hw as [Hw Hlen].
    apply Nat.ltb_lt in Hlen. split; trivial.
    apply in_map_iff in Hws. destruct Hws as [lt [<- Hlt]].
    apply in_map_iff in Hlt. destruct Hlt as [t [<- Ht]].
    exists t. split; trivial. now apply dropna_In.
  - intros [Hlen [t [Ht Hw]]]. exists (split (lower t)). split.
    + apply in_map, in_map. now apply dropna_In.
    + apply filter_In. split; trivial. now apply Nat.ltb_lt.
Qed.

Lemma words_entries `{CaseMapping} (df : DataFrame) :
  Forall (fun e => In (fst e) (long_title_words df) /\
                   snd e = occurrences str_eqb (fst e) (long_title_words df))
         (Analysis.words df).
Proof.
  apply Forall_forall. intros [w n] He. simpl. split.
  - apply (@tally_keys _ _ str_eqb_eq). apply in_map_iff.
    exists (w, n). now split.
  - now apply (@tally_count _ _ str_eqb_eq) in He.
Qed.

Lemma NoDup_head (A : Type) (n : nat) (l : list A) :
  NoDup l -> NoDup (head n l).
Proof.
  unfold head. intros H. rewrite <- (firstn_skipn n l) in H.
  eapply NoDup_app_remove_r. exact H.
Qed.

(** X9: the most common title words are at most ten distinct words in
    descending order of count.  Each is a word of a lower-cased title,
    longer than five characters and free of white space, and its count is
    the number of times it occurs among the words of all lower-cased
    titles; records without a title contribute nothing. *)
Theorem most_common_title_words_are_long_words :
  forall (C : CaseMapping) (df : DataFrame),
    length (Analysis.most_common_title_words df) <= 10 /\
    StronglySorted (fun a b => snd b <= snd a)
                   (Analysis.most_common_title_words df) /\
    NoDup (map fst (Analysis.most_common_title_words df)) /\
    Forall (fun e =>
              5 < length (fst e) /\
              Forall (fun c => isspace c = false) (fst e) /\
              (exists t, In (Some t) (map title df) /\
                         In (fst e) (split (lower t))) /\
              1 <= snd e /\
              snd e = occurrences str_eqb (fst e)
                        (concat (Analysis.all_titles df)))
           (Analysis.most_common_title_words df) /\
    Analysis.most_common_title_words df =
      Analysis.most_common_title_words (filter (fun r => notna (title r)) df).
Proof.
  intros C df. unfold Analysis.most_common_title_words, most_common.
  split; [apply firstn_le_length|].
  split; [apply StronglySorted_head, insertion_sort_desc_sorted|].
  split.
  { unfold head. rewrite <- firstn_map. apply NoDup_head.
    eapply Permutation_NoDup.
    - apply Permutation_map, insertion_sort_desc_perm.
    - apply (@tally_NoDup _ _ str_eqb_eq). }
  split.
  { apply Forall_head. apply Forall_forall. intros e He.
    apply (Permutation_in _ (Permutation_sym (insertion_sort_desc_perm _))) in He.
    pose proof (words_entries df) as Hall. rewrite Forall_forall in Hall.
    destruct (Hall e He) as [Hin Hn].
    pose proof Hin as Hspec. apply long_title_words_spec in Hspec.
    destruct Hspec as [Hlen [t [Ht Hw]]].
    split; trivial. split.
    { pose proof (split_ws_tokens (lower t) None I) as Htok.
      rewrite Forall_forall in Htok. now apply Htok. }
    split; [now exists t|]. split.
    - apply Nat.le_trans with (occurrences str_eqb (fst e) (long_title_words df));
        [now apply occurrences_pos|].
      apply Nat.eq_le_incl. symmetry. exact Hn.
    - etransitivity; [exact Hn|]. now apply occurrences_long. }
  unfold Analysis.words, Analysis.all_titles, dropna.
  do 5 f_equal.
  induction df as [|r df IH]; simpl; trivial.
  destruct (title r) eqn:E; simpl; rewrite ?E; now rewrite IH.
Qed.

(** X10: a long title word that is not among the most common title words is
    left out only because ten words are already listed, each of them at
    least as frequent as the word left out. *)
Theorem most_common_title_words_are_the_most_frequent :
  forall (C : CaseMapping) (df : DataFrame) (w : str),
    In w (long_title_words df) ->
    ~ In w (map fst (Analysis.most_common_title_words df)) ->
    length (Analysis.most_common_title_words df) = 10 /\
    Forall (fun e => occurrences str_eqb w (concat (Analysis.all_titles df))
                     <= snd e)
           (Analysis.most_common_title_words df).
Proof.
  intros C df w Hw Hout.
  unfold Analysis.most_common_title_words, most_common in *.
  set (sorted := insertion_sort_desc (Analysis.words df)) in *.
  assert (Hk : In w (map fst (Analysis.words df)))
    by (now apply (@tally_keys _ _ str_eqb_eq)).
  apply in_map_iff in Hk. destruct Hk as [[k c] [Ek He]]. simpl in Ek. subst k.
  assert (Hc : c = occurrences str_eqb w (concat (Analysis.all_titles df))).
  { pose proof (words_entries df) as Hall. rewrite Forall_forall in Hall.
    destruct (Hall _ He) as [_ Hn]. simpl in Hn.
    etransitivity; [exact Hn|]. apply occurrences_long.
    apply long_title_words_spec in Hw. tauto. }
  assert (Hs : In (w, c) sorted)
    by (eapply Permutation_in; [apply insertion_sort_desc_perm|exact He]).
  destruct (head_or_rest 10 sorted _ Hs) as [Hin|Hrest].
  { elim Hout. apply in_map_iff. exists (w, c). now split. }
  split; [eapply head_full; exact Hrest|].
  apply Forall_forall. intros e Hin.
  pose proof (head_dominates 10 (insertion_sort_desc_sorted (Analysis.words df))
                e (w, c) Hin Hrest) as Hd.
  simpl in Hd. now rewrite <- Hc.
Qed.

Lemma most_common_title_words_are_the_most_frequent_witness :
  In [107; 107; 107; 107; 107; 107]%N
     (@long_title_words ascii_case sample_eleven_titles) /\
  length (@Analysis.most_common_title_words ascii_case sample_eleven_titles) = 10.
Proof.
  assert (Hin : In [107; 107; 107; 107; 107; 107]%N
                   (@long_title_words ascii_case sample_eleven_titles))
    by (vm_compute; tauto).
  assert (Hout : ~ In [107; 107; 107; 107; 107; 107]%N
                      (map fst (@Analysis.most_common_title_words ascii_case
                                  sample_eleven_titles))).
  { vm_compute. intuition discriminate. }
  split; [exact Hin|].
  exact (proj1 (@most_common_title_words_are_the_most_frequent ascii_case
                  sample_eleven_titles _ Hin Hout)).
Defined.

(** ** Words of equal count *)

Lemma bump_keys_order (k : str) (acc : list (str * nat)) :
  map fst (bump str_eqb k acc) =
  if existsb (str_eqb k) (map fst acc) then map fst acc
  else map fst acc ++ [k].
Proof.
  induction acc as [|[k' n] acc IH]; simpl; trivial.
  destruct (str_eqb k k'); simpl; trivial.
  rewrite IH. now destruct (existsb (str_eqb k) (map fst acc)).
Qed.

Lemma tally_keys_order (s : list str) :
  map fst (tally str_eqb s) = first_seen [] s.
Proof.
  unfold tally.
  assert (H : forall acc,
             map fst (fold_left (fun a k => bump str_eqb k a) s acc) =
             map fst acc ++ first_seen (map fst acc) s).
  { induction s as [|k s IH]; intros acc; simpl; [now rewrite app_nil_r|].
    rewrite IH, bump_keys_order.
    destruct (existsb (str_eqb k) (map fst acc)); trivial.
    now rewrite <- app_assoc. }
  apply (H []).
Qed.

Lemma insert_desc_stable (K : Type) (v : nat) (e : K * nat) (l : list (K * nat)) :
  filter (fun x => snd x =? v) (insert_by (fun a b => snd b <=? snd a) e l) =
  filter (fun x => snd x =? v) (e :: l).
Proof.
  induction l as [|e' l IH]; simpl; trivial.
  destruct (snd e' <=? snd e) eqn:E; simpl; trivial.
  apply Nat.leb_gt in E. simpl in IH.
  destruct (snd e' =? v) eqn:E'.
  - apply Nat.eqb_eq in E'.
    assert (Ev : (snd e =? v) = false) by (apply Nat.eqb_neq; lia).
    rewrite Ev in *. now rewrite IH.
  - exact IH.
Qed.

Lemma insertion_sort_desc_stable (K : Type) (v : nat) (l : list (K * nat)) :
  filter (fun x => snd x =? v) (insertion_sort_desc l) =
  filter (fun x => snd x =? v) l.
Proof.
  unfold insertion_sort_desc.
  induction l as [|e l IH]; simpl; trivial.
  rewrite insert_desc_stable. simpl. now rewrite IH.
Qed.

Lemma map_fst_filter (A B : Type) (p : A -> bool) (l : list (A * B)) :
  map fst (filter (fun e => p (fst e)) l) = filter p (map fst l).
Proof.
  induction l as [|e l IH]; simpl; trivial.
  destruct (p (fst e)); simpl; congruence.
Qed.

(** X11: the most common title words are the first ten of a ranking of all
    counted words in which, for every count, the words with that count stand
    in the order in which they are first met in the titles. *)
Theorem most_common_title_words_ties_in_first_seen_order :
  forall (C : CaseMapping) (df : DataFrame),
    Analysis.most_common_title_words df =
      head 10 (insertion_sort_desc (Analysis.words df)) /\
    Permutation (Analysis.words df) (insertion_sort_desc (Analysis.words df)) /\
    forall v : nat,
      map fst (filter (fun e => snd e =? v)
                      (insertion_sort_desc (Analysis.words df))) =
      filter (fun w => occurrences str_eqb w (long_title_words df) =? v)
             (first_seen [] (long_title_words df)).
Proof.
  intros C df. split; [reflexivity|].
  split; [apply insertion_sort_desc_perm|].
  intros v. rewrite insertion_sort_desc_stable.
  rewrite <- (tally_keys_order (long_title_words df)).
  rewrite <- (map_fst_filter
                (fun w => occurrences str_eqb w (long_title_words df) =? v)).
  f_equal. apply filter_ext_in. intros e He.
  pose proof (words_entries df) as Hall. rewrite Forall_forall in Hall.
  destruct (Hall e He) as [_ Hn].
  f_equal. exact Hn.
Qed.

(** ** The year table does not depend on the order of equal counts *)

Lemma sorted_unique (A : Type) (R : A -> A -> Prop) :
  (forall a, ~ R a a) ->
  (forall a b c, R a b -> R b c -> R a c) ->
  forall l1 l2,
    StronglySorted R l1 -> StronglySorted R l2 ->
    (forall x, In x l1 <-> In x l2) -> l1 = l2.
Proof.
  intros Hirr Htr l1.
  induction l1 as [|a l1 IH]; intros l2 H1 H2 Hin.
  - destruct l2 as [|b l2]; trivial.
    destruct (proj2 (Hin b) (or_introl eq_refl)).
  - destruct l2 as [|b l2].
    { destruct (proj1 (Hin a) (or_introl eq_refl)). }
    apply StronglySorted_inv in H1. destruct H1 as [H1 Ha].
    apply StronglySorted_inv in H2. destruct H2 as [H2 Hb].
    rewrite Forall_forall in Ha, Hb.
    assert (E : a = b).
    { destruct (proj1 (Hin a) (or_introl eq_refl)) as [E|Ha2]; [now symmetry|].
      destruct (proj2 (Hin b) (or_introl eq_refl)) as [E|Hb1]; trivial.
      elim (Hirr a). apply Htr with b; auto. }
    subst b. f_equal. apply IH; trivial.
    intros x. split; intros Hx.
    + destruct (proj1 (Hin x) (or_intror Hx)) as [E|Hx2]; trivial.
      subst x. elim (Hirr a). now apply Ha.
    + destruct (proj2 (Hin x) (or_intror Hx)) as [E|Hx1]; trivial.
      subst x. elim (Hirr a). now apply Hb.
Qed.

Lemma label_lt_irrefl (a : option Z * nat) : ~ label_lt a a.
Proof.
  unfold label_lt. destruct (fst a); [lia|tauto].
Qed.

Lemma label_lt_trans (a b c : option Z * nat) :
  label_lt a b -> label_lt b c -> label_lt a c.
Proof.
  unfold label_lt. destruct (fst a), (fst b), (fst c); try tauto. lia.
Qed.

Lemma year_frequency_ascending `{Sorter} (df : DataFrame) :
  StronglySorted label_lt (year_frequency df).
Proof.
  assert (Hnd : NoDup (map fst (year_frequency df))).
  { unfold year_frequency. eapply Permutation_NoDup.
    - apply Permutation_map, sort_index_perm.
    - apply (value_counts_NoDup Z.eqb_eq). }
  pose proof (year_counts_present df) as Hpres.
  rewrite Forall_forall in Hpres.
  eapply StronglySorted_weaken;
    [|exact (StronglySorted_distinct fst (sort_index_sorted
               (value_counts Z.eqb true (map year df))) Hnd)].
  intros a b Ha Hb [Hle Hne].
  destruct (Hpres a Ha) as [x [Ex _]], (Hpres b Hb) as [y [Ey _]].
  unfold label_lt. rewrite Ex, Ey in *. simpl in Hle.
  apply Z.leb_le in Hle.
  assert (x <> y) by congruence. lia.
Qed.

Lemma year_frequency_entries `{Sorter} (df : DataFrame) (e : option Z * nat) :
  In e (year_frequency df) <->
  exists y, e = (Some y, records_with_year y df) /\ In (Some y) (map year df).
Proof.
  pose proof (year_counts_present df) as Hpres.
  rewrite Forall_forall in Hpres. split.
  - intros He. destruct (Hpres e He) as [y [E [Hin Hn]]].
    exists y. split; trivial. destruct e as [k c]. simpl in *. congruence.
  - intros [y [-> Hin]].
    assert (Hk : In (Some y) (map fst (year_frequency df))).
    { unfold year_frequency.
      apply (Permutation_in _ (Permutation_map fst (sort_index_perm _))).
      apply (value_counts_keys Z.eqb_eq). apply filter_In. now split. }
    apply in_map_iff in Hk. destruct Hk as [[k c] [Ek He]].
    simpl in Ek. subst k.
    destruct (Hpres _ He) as [y' [E [_ Hn]]]. simpl in E, Hn.
    inversion E. subst y'. now rewrite <- Hn.
Qed.

(** X12: the publications-by-year table is the same whichever way the
    library orders entries of equal count: two sorts that both order by
    descending count give the same table. *)
Theorem year_table_independent_of_tie_order :
  forall (S1 S2 : Sorter) (df : DataFrame),
    @Analysis.counts_year S1 df = @Analysis.counts_year S2 df.
Proof.
  intros S1 S2 df. unfold Analysis.counts_year.
  apply (sorted_unique label_lt_irrefl label_lt_trans).
  - apply year_frequency_ascending.
  - apply year_frequency_ascending.
  - intros e. now rewrite !year_frequency_entries.
Qed.

(** ** The year chart of a filtered page *)

Lemma StronglySorted_filter (A : Type) (R : A -> A -> Prop) (p : A -> bool)
    (l : list A) :
  StronglySorted R l -> StronglySorted R (filter p l).
Proof.
  induction 1 as [|a l Hs IH Hall]; simpl; [constructor|].
  destruct (p a); trivial. constructor; trivial.
  rewrite Forall_forall in *. intros x Hx. apply Hall.
  apply filter_In in Hx. tauto.
Qed.

Lemma records_with_year_filtered (lo hi y : Z) (df : DataFrame) :
  (lo <= y <= hi)%Z ->
  records_with_year y (filter_year (lo, hi) df) = records_with_year y df.
Proof.
  intros Hy. unfold records_with_year, filter_year.
  rewrite filter_twice. f_equal. apply filter_ext. intros r.
  unfold mask, ge_cell, le_cell. simpl.
  destruct (year r) as [v|]; simpl; trivial.
  destruct (y =? v)%Z eqn:E; simpl; trivial.
  apply Z.eqb_eq in E. subst v.
  apply andb_true_iff. split; apply Z.leb_le; lia.
Qed.

Lemma year_in_filtered (lo hi y : Z) (df : DataFrame) :
  In (Some y) (map year (filter_year (lo, hi) df)) <->
  In (Some y) (map year df) /\ (lo <= y <= hi)%Z.
Proof.
  rewrite !in_map_iff. split.
  - intros [r [E Hr]]. apply filter_In in Hr. destruct Hr as [Hr Hm].
    apply mask_spec in Hm. destruct Hm as [y' [E' Hy]].
    assert (y' = y) by congruence. subst y'.
    split; trivial. now exists r.
  - intros [[r [E Hr]] Hy]. exists r. split; trivial.
    apply filter_In. split; trivial.
    apply mask_spec. now exists y.
Qed.

(** X13: the year chart of a filtered page is the year table of the whole
    table cut down to the selected interval: it has the entries of that
    table whose year lies in the interval, with unchanged counts and in the
    same order. *)
Theorem filtered_year_chart_is_restriction :
  forall (S : Sorter) (df : DataFrame) (lo hi : Z),
    App.counts (App.render df (lo, hi)) =
    filter (fun e => ge_cell (fst e) lo && le_cell (fst e) hi)
           (Analysis.counts_year df).
Proof.
  intros S df lo hi. unfold App.render, Analysis.counts_year.
  cbn [App.counts].
  apply (sorted_unique label_lt_irrefl label_lt_trans).
  - apply year_frequency_ascending.
  - apply StronglySorted_filter, year_frequency_ascending.
  - intros e. rewrite filter_In, !year_frequency_entries. split.
    + intros [y [-> Hin]]. apply year_in_filtered in Hin.
      destruct Hin as [Hin Hy]. split.
      * exists y. split; trivial. f_equal.
        now apply records_with_year_filtered.
      * simpl. apply andb_true_iff. split; apply Z.leb_le; lia.
    + intros [[y [-> Hin]] Hr]. simpl in Hr.
      apply andb_true_iff in Hr. destruct Hr as [H1 H2].
      apply Z.leb_le in H1. apply Z.leb_le in H2.
      exists y. split.
      * f_equal. symmetry. apply records_with_year_filtered. lia.
      * apply year_in_filtered. split; trivial. lia.
Qed.

(** ** Data of the histogram *)

Lemma dropna_all_present (A B : Type) (f : A -> option B) (g : A -> B)
    (l : list A) :
  Forall (fun x => f x = Some (g x)) l -> dropna (map f l) = map g l.
Proof.
  induction 1 as [|x l Hx _ IH]; simpl; trivial.
  rewrite Hx. simpl. congruence.
Qed.

Lemma counted_word_count (l : DataFrame) :
  Forall (fun r => abstract_word_count r =
                   Some (whitespace_token_count (abstract r)))
         (map counted l).
Proof.
  apply Forall_forall. intros r Hr.
  apply in_map_iff in Hr. destruct Hr as [r0 [<- _]].
  simpl. now rewrite word_count_tokens.
Qed.

(** X14: the histogram is drawn from one value per record, the word count
    of that record's abstract: dropping absent word counts before drawing
    removes nothing, in the interactive page for every selected range and
    in the batch plot of the cleaned table. *)
Theorem histogram_has_one_value_per_record :
  forall (P : DatetimeParser) (S : Sorter) (df0 : RawFrame) (year_range : Z * Z),
    App.histogram (App.render (App.load_data df0) year_range) =
      map (fun r => whitespace_token_count (abstract r))
          (App.df_filtered (App.render (App.load_data df0) year_range)) /\
    length (App.histogram (App.render (App.load_data df0) year_range)) =
      App.n_papers (App.render (App.load_data df0) year_range) /\
    Analysis.plot_histogram_abstract_words
        (Analysis.cleaned (Analysis.clean_data df0)) =
      map (fun r => whitespace_token_count (abstract r))
          (Analysis.cleaned (Analysis.clean_data df0)).
Proof.
  intros P S df0 yr. unfold App.render.
  cbn [App.histogram App.df_filtered App.n_papers].
  assert (E : dropna (map abstract_word_count
                          (filter_year yr (App.load_data df0))) =
              map (fun r => whitespace_token_count (abstract r))
                  (filter_year yr (App.load_data df0))).
  { apply dropna_all_present. apply filter_year_incl.
    rewrite load_data_rows. apply counted_word_count. }
  split; [exact E|]. split; [rewrite E; apply length_map|].
  unfold Analysis.plot_histogram_abstract_words.
  apply dropna_all_present. rewrite clean_data_rows. apply counted_word_count.
Qed.

(** ** Missing values and dropped rows *)

Lemma parse_dates_title `{DatetimeParser} (df : RawFrame) :
  map title (parse_dates df) = map raw_title df.
Proof.
  rewrite parse_dates_rows, map_map. simpl.
  rewrite <- (map_map fst raw_title). f_equal.
  apply combine_fst_full.
  now rewrite to_datetime_length, length_map.
Qed.

Lemma isnull_sum_column (A : Type) (col : PaperRecord -> option A) (df : DataFrame) :
  isnull_sum (map col df) = length (filter (fun r => negb (notna (col r))) df).
Proof.
  unfold isnull_sum.
  rewrite (filter_map_commute col (fun x => negb (notna x))). apply length_map.
Qed.

Lemma filter_or_bounds (A : Type) (p q : A -> bool) (l : list A) :
  length (filter p l) <= length (filter (fun x => p x || q x) l) /\
  length (filter q l) <= length (filter (fun x => p x || q x) l) /\
  length (filter (fun x => p x || q x) l) <=
    length (filter p l) + length (filter q l).
Proof.
  induction l as [|a l IH]; simpl; [lia|].
  destruct (p a), (q a); simpl; lia.
Qed.

Lemma parse_dates_missing_year `{DatetimeParser} (df : RawFrame) :
  isnull_sum (map year (parse_dates df)) =
  isnull_sum (to_datetime (map raw_publish_time df)).
Proof.
  rewrite <- parse_dates_publish_time, !isnull_sum_column.
  f_equal. apply filter_ext_in. intros r Hr.
  pose proof (parse_dates_year df) as Hall. rewrite Forall_forall in Hall.
  rewrite (Hall r Hr). now destruct (publish_time r).
Qed.

(** X15: the number of rows the Cleaner reports as dropped is at least the
    number of missing titles [explore_data] printed for the same table, at
    least the number of dates that did not parse, and at most the sum of
    the two; the Cleaner drops nothing exactly when no title is missing and
    every date parses. *)
Theorem dropped_rows_against_missing_values :
  forall (P : DatetimeParser) (df : RawFrame),
    (Z.of_nat (Analysis.missing_title (Analysis.explore_data df)) <=
       Analysis.dropped (Analysis.clean_data df))%Z /\
    (Z.of_nat (isnull_sum (to_datetime (map raw_publish_time df))) <=
       Analysis.dropped (Analysis.clean_data df))%Z /\
    (Analysis.dropped (Analysis.clean_data df) <=
       Z.of_nat (Analysis.missing_title (Analysis.explore_data df)) +
       Z.of_nat (isnull_sum (to_datetime (map raw_publish_time df))))%Z /\
    (Analysis.dropped (Analysis.clean_data df) = 0%Z <->
     Analysis.missing_title (Analysis.explore_data df) = 0 /\
     isnull_sum (to_datetime (map raw_publish_time df)) = 0).
Proof.
  intros P df.
  assert (Ed : Analysis.dropped (Analysis.clean_data df) =
               Z.of_nat (length (filter title_or_year_absent (parse_dates df)))).
  { change (Analysis.dropped (Analysis.clean_data df))
      with (Z.of_nat (length (parse_dates df)) -
            Z.of_nat (length (filter has_title_and_year (parse_dates df))))%Z.
    rewrite (filter_partition_length has_title_and_year (parse_dates df)) at 1.
    rewrite (filter_ext (fun r => negb (has_title_and_year r))
                        title_or_year_absent).
    - lia.
    - intros r. unfold has_title_and_year, title_or_year_absent.
      apply negb_andb. }
  assert (Et : Analysis.missing_title (Analysis.explore_data df) =
               length (filter (fun r => negb (notna (title r))) (parse_dates df))).
  { cbn [Analysis.explore_data Analysis.missing_title].
    now rewrite <- parse_dates_title, isnull_sum_column. }
  assert (Ey : isnull_sum (to_datetime (map raw_publish_time df)) =
               length (filter (fun r => negb (notna (year r))) (parse_dates df))).
  { now rewrite <- parse_dates_missing_year, isnull_sum_column. }
  rewrite Ed, Et, Ey.
  pose proof (filter_or_bounds (fun r => negb (notna (title r)))
                               (fun r => negb (notna (year r)))
                               (parse_dates df)) as [H1 [H2 H3]].
  fold title_or_year_absent in H1, H2, H3.
  repeat split; lia.
Qed.

(** ** The batch table against the interactive page *)

Lemma default_range_keeps_dated_rows (df : DataFrame) (min_year max_year : Z) :
  App.year_bounds df = Some (min_year, max_year) ->
  filter_year (min_year, max_year) df = filter (fun r => notna (year r)) df.
Proof.
  intros Hb. unfold filter_year. apply filter_ext_in. intros r Hr.
  destruct (year r) as [y|] eqn:Hy.
  - simpl. apply mask_spec. exists y. split; trivial.
    eapply year_bounds_cover; eassumption.
  - unfold mask, ge_cell. now rewrite Hy.
Qed.

(** X16: when the interactive script shows its page with the slider
    untouched, the table the batch Cleaner returns for the same file is the
    page's filtered table without the records that lack a title, so the
    batch table never has more rows than the page. *)
Theorem cleaned_is_default_page_less_untitled :
  forall (P : DatetimeParser) (S : Sorter) (df0 : RawFrame) (page : App.Page),
    App.main (ReadOk df0) None = Some page ->
    Analysis.cleaned (Analysis.clean_data df0) =
      filter (fun r => notna (title r)) (App.df_filtered page) /\
    length (Analysis.cleaned (Analysis.clean_data df0)) <= App.n_papers page.
Proof.
  intros P S df0 page Hmain.
  unfold App.main, App.slider in Hmain. cbn [App.read fillna] in Hmain.
  destruct (App.year_bounds (App.load_data df0)) as [[min_year max_year]|] eqn:Hb;
    [|discriminate].
  destruct (min_year =? max_year)%Z; [discriminate|].
  injection Hmain as <-. unfold App.render.
  cbn [App.df_filtered App.n_papers].
  assert (E : Analysis.cleaned (Analysis.clean_data df0) =
              filter (fun r => notna (title r))
                     (filter_year (min_year, max_year) (App.load_data df0))).
  { rewrite (default_range_keeps_dated_rows _ Hb), filter_twice.
    rewrite clean_data_rows, load_data_rows.
    symmetry. apply dropna_title_year_counted. }
  split; [exact E|]. rewrite E. apply filter_length_le.
Qed.

Lemma cleaned_is_default_page_less_untitled_witness :
  exists page,
    @App.main iso_parser stable_sorter
       (ReadOk [sample_paper; sample_older; sample_untitled; sample_undated]) None
      = Some page /\
    App.n_papers page = 3 /\
    length (Analysis.cleaned (@Analysis.clean_data iso_parser
              [sample_paper; sample_older; sample_untitled; sample_undated]))
      <= App.n_papers page.
Proof.
  eexists. split; [reflexivity|]. split; [reflexivity|].
  exact (proj2 (@cleaned_is_default_page_less_untitled iso_parser stable_sorter
                  [sample_paper; sample_older; sample_untitled; sample_undated]
                  _ eq_refl)).
Defined.
